(** * Template compiler: placeholder extraction, rendering, token guard, store

    A shallow embedding of [main.py].  Python [str] values are modelled as
    [string] (characters are code points below 256), the replacement [dict]
    as an insertion-ordered association list with unique keys, the
    [templates] table as a list of rows, and the ambient clock, the process
    configuration and the JWT library as explicit parameters. *)

From Stdlib Require Import Strings.String Strings.Ascii Lists.List Bool.
From Stdlib Require Import Arith.PeanoNat Lia ZArith.
Import ListNotations.
Open Scope string_scope.

(** ** Python string primitives *)

Module PyStr.

(** [str.isspace] on one character, which is also the class [\s] of [re]
    for [str] patterns: TAB..CR, FS..US, SPACE, NEL and NBSP. *)
Definition is_space (c : ascii) : bool :=
  let n := nat_of_ascii c in
  (((9 <=? n) && (n <=? 13)) || ((28 <=? n) && (n <=? 32))
   || (n =? 133) || (n =? 160))%nat.

Definition newline : ascii := ascii_of_nat 10.

(** [s.lstrip()] *)
Fixpoint lstrip (s : string) : string :=
  match s with
  | "" => ""
  | String c s' => if is_space c then lstrip s' else s
  end.

(** [s.rstrip()] *)
Fixpoint rstrip (s : string) : string :=
  match s with
  | "" => ""
  | String c s' =>
      match rstrip s' with
      | "" => if is_space c then "" else String c ""
      | r => String c r
      end
  end.

(** [s.strip()] *)
Definition strip (s : string) : string := rstrip (lstrip s).

(** [s.startswith(p)] *)
Fixpoint startswith (p s : string) : bool :=
  match p, s with
  | "", _ => true
  | String a p', String b s' => Ascii.eqb a b && startswith p' s'
  | String _ _, "" => false
  end.

(** [s[n:]] *)
Fixpoint drop (n : nat) (s : string) : string :=
  match n, s with
  | 0, _ => s
  | S n', String _ s' => drop n' s'
  | S _, "" => ""
  end.

(** [sub in s] *)
Fixpoint contains (sub s : string) : bool :=
  startswith sub s ||
  match s with
  | "" => false
  | String _ s' => contains sub s'
  end.

(** [s.split(sep)] for a one-character separator: never the empty list. *)
Fixpoint split (sep : ascii) (s : string) : list string :=
  match s with
  | "" => [""]
  | String c s' =>
      if Ascii.eqb c sep then "" :: split sep s'
      else match split sep s' with
           | piece :: pieces => String c piece :: pieces
           | [] => [String c ""]
           end
  end.

(** [s.replace("", new)]: [new] before every character and at the end. *)
Fixpoint interleave (new s : string) : string :=
  match s with
  | "" => new
  | String c s' => new ++ String c (interleave new s')
  end.

(** The left-to-right scan of [s.replace(old, new)] for a non-empty [old]:
    [skip] counts the characters of a match still to be passed over. *)
Fixpoint replace_scan (old new : string) (skip : nat) (s : string) : string :=
  match s with
  | "" => ""
  | String c s' =>
      match skip with
      | S n => replace_scan old new n s'
      | 0 =>
          if startswith old s
          then new ++ replace_scan old new (String.length old - 1) s'
          else String c (replace_scan old new 0 s')
      end
  end.

(** [s.replace(old, new)] *)
Definition replace (old new s : string) : string :=
  match old with
  | "" => interleave new s
  | String _ _ => replace_scan old new 0 s
  end.

End PyStr.

(** ** A backtracking matcher for the fragment of [re] the extractor uses *)

Module Re.

Inductive regex : Type :=
| Bol                               (* [^], without [MULTILINE] *)
| Lit (s : string)                  (* a literal *)
| LazyPlus (cls : ascii -> bool)    (* [c+?] for a character class *)
| GreedyStar (cls : ascii -> bool)  (* [c*] for a character class *)
| Group (r : regex)                 (* a capturing group *)
| Seq (r1 r2 : regex).

(** One way of matching at the current position of the subject: the text
    consumed, the groups captured (in order of their opening parenthesis)
    and the text left. *)
Definition attempt : Type := string * list string * string.

Definition extend (c : ascii) (a : string * string) : string * string :=
  (String c (fst a), snd a).

(** The ways [c+?] can match, shortest first. *)
Fixpoint lazy_plus (cls : ascii -> bool) (s : string) : list (string * string) :=
  match s with
  | "" => []
  | String c s' =>
      if cls c then (String c "", s') :: map (extend c) (lazy_plus cls s')
      else []
  end.

(** The ways [c*] can match, longest first. *)
Fixpoint greedy_star (cls : ascii -> bool) (s : string) : list (string * string) :=
  match s with
  | "" => [("", "")]
  | String c s' =>
      if cls c then (map (extend c) (greedy_star cls s') ++ [("", s)])%list
      else [("", s)]
  end.

Definition is_empty (s : string) : bool :=
  match s with
  | "" => true
  | String _ _ => false
  end.

(** All the ways a pattern matches at the current position, [s] being the
    text from there on, in the order the backtracking engine tries them;
    [at_start] tells whether the position is the start of the subject. *)
Fixpoint run (r : regex) (at_start : bool) (s : string) : list attempt :=
  match r with
  | Bol => if at_start then [("", [], s)] else []
  | Lit l => if PyStr.startswith l s then [(l, [], PyStr.drop (String.length l) s)] else []
  | LazyPlus cls => map (fun a => (fst a, [], snd a)) (lazy_plus cls s)
  | GreedyStar cls => map (fun a => (fst a, [], snd a)) (greedy_star cls s)
  | Group r1 =>
      map (fun a : attempt =>
             let '(txt, gs, rest) := a in (txt, txt :: gs, rest)) (run r1 at_start s)
  | Seq r1 r2 =>
      flat_map (fun a : attempt =>
                  let '(t1, g1, rest1) := a in
                  map (fun b : attempt =>
                         let '(t2, g2, rest2) := b in (t1 ++ t2, (g1 ++ g2)%list, rest2))
                      (run r2 (at_start && is_empty t1) rest1))
               (run r1 at_start s)
  end.

(** The scan of [re.search]: the pattern is tried at the current position
    and, when no attempt succeeds there, one character further on, up to
    and including the end of the subject. *)
Fixpoint search_from (r : regex) (at_start : bool) (s : string)
  : option (list string) :=
  match run r at_start s with
  | (_, gs, _) :: _ => Some gs
  | [] =>
      match s with
      | "" => None
      | String _ s' => search_from r false s'
      end
  end.

(** [re.search(p, s)]: the groups of the first successful attempt at the
    leftmost position that has one. *)
Definition search (r : regex) (s : string) : option (list string) :=
  search_from r true s.

(** [match.group(n)] for [n >= 1]. *)
Definition group (n : nat) (gs : list string) : string :=
  nth (n - 1) gs "".

(** [.] without [DOTALL]. *)
Definition dot (c : ascii) : bool := negb (Ascii.eqb c PyStr.newline).

End Re.

(** ** The replacement mapping: a [dict] in insertion order *)

(** A [dict] with [str] keys: the entries in insertion order, each key once. *)
Definition dict_of (V : Type) : Type := list (string * V).

(** [d[k] = v]: overwrite in place, or append. *)
Fixpoint dict_set {V : Type} (k : string) (v : V) (d : dict_of V) : dict_of V :=
  match d with
  | [] => [(k, v)]
  | (k', v') :: d' =>
      if String.eqb k k' then (k, v) :: d' else (k', v') :: dict_set k v d'
  end.

(** [d.get(k)] *)
Fixpoint dict_get {V : Type} (k : string) (d : dict_of V) : option V :=
  match d with
  | [] => None
  | (k', v') :: d' => if String.eqb k k' then Some v' else dict_get k d'
  end.

(** [list(d.keys())] *)
Definition dict_keys {V : Type} (d : dict_of V) : list string := map fst d.

(** [Dict[str, str]] *)
Definition dict : Type := dict_of string.

(** ** Placeholder extractor *)

(** The set literal [ignored_keys]; the code only tests membership in it. *)
Definition ignored_keys : list string :=
  [ "SPAN"; "DIV"; "P"; "H1"; "H2"; "H3"; "H4"; "H5"; "H6";
    "A"; "IMG"; "UL"; "LI"; "SECTION"; "HEADER"; "FOOTER"; "BODY"; "HTML";
    "SCRIPT"; "STYLE"; "BR"; "HR" ].

(** [key in ignored_keys] *)
Definition is_ignored (key : string) : bool :=
  existsb (String.eqb key) ignored_keys.

(** The pattern of [re.search]: the start anchor, two escaped asterisks,
    group 1 (a lazy run of one or more [.]), a colon, two escaped
    asterisks, a greedy run of [\s], and group 2 (a greedy run of [.]). *)
Definition line_pattern : Re.regex :=
  Re.Seq Re.Bol
    (Re.Seq (Re.Lit "**")
       (Re.Seq (Re.Group (Re.LazyPlus Re.dot))
          (Re.Seq (Re.Lit ":**")
             (Re.Seq (Re.GreedyStar PyStr.is_space)
                (Re.Group (Re.GreedyStar Re.dot)))))).

(** The body of the [for line in lines] loop. *)
Definition parse_line (replacements : dict) (line : string) : dict :=
  let line := PyStr.strip line in
  match Re.search line_pattern line with
  | Some m =>
      let key := PyStr.strip (Re.group 1 m) in
      let value := PyStr.strip (Re.group 2 m) in
      if is_ignored key then replacements
      else dict_set key value replacements
  | None => replacements
  end.

(** [lines = text.split('\n')], then the loop over the lines from the
    empty mapping. *)
Definition parse_text_replacements (text : string) : dict :=
  fold_left parse_line (PyStr.split PyStr.newline text) [].

(** ** Template renderer *)

(** The body of the [for key, value in replacements.items()] loop, on the
    pair [(html_content, count)]. *)
Definition render_step (st : string * nat) (entry : string * string) : string * nat :=
  let '(html_content, count) := st in
  let '(key, value) := entry in
  if PyStr.contains key html_content
  then (PyStr.replace key value html_content, count + 1)
  else (html_content, count).

(** The loop of [generate_html] from [count = 0] on: the substituted body
    and the final count. *)
Definition render (replacements : dict) (template_content : string) : string * nat :=
  fold_left render_step replacements (template_content, 0).

Record GenerationRequest : Type := {
  template_content : string;
  input_text : string
}.

Record GenerationResponse : Type := {
  generated_html : string;
  replacements_count : nat
}.

Definition generate_html (request : GenerationRequest) (current_user : string)
  : GenerationResponse :=
  let html_content := template_content request in
  let replacements := parse_text_replacements (input_text request) in
  let '(html_content, count) := render replacements html_content in
  {| generated_html := html_content; replacements_count := count |}.


(** ** Authentication *)

Record HTTPException : Type := {
  status_code : nat;
  detail : string;
  headers : list (string * string)
}.

(** The values a token payload holds: the subject, a [str], and the
    expiry, a time in seconds since the epoch. *)
Inductive claim_value : Type :=
| CStr (s : string)
| CTime (t : Z).

Definition claim_eqb (a b : claim_value) : bool :=
  match a, b with
  | CStr s, CStr s' => String.eqb s s'
  | CTime t, CTime t' => Z.eqb t t'
  | _, _ => false
  end.

Definition payload : Type := dict_of claim_value.

(** What [jose.jwt.decode] raises, all of it caught by [except JWTError]:
    [JWTError] itself for a signature that does not verify and for a token
    that cannot be parsed, and its subclasses [ExpiredSignatureError] and
    [JWTClaimsError], the latter for every other claim the library checks
    (a not-before time in the future, issued-at, audience, issuer, a
    subject that is not a string, and the like). *)
Inductive JWTError : Type :=
| InvalidSignature
| Malformed
| ExpiredSignature
| JWTClaimsError.

Record Token (token : Type) : Type := {
  access_token : token;
  token_type : string
}.
Arguments access_token {token} _.
Arguments token_type {token} _.

Definition ACCESS_TOKEN_EXPIRE_MINUTES : Z := 60 * 24.

(** [timedelta(minutes=m)], in seconds. *)
Definition timedelta_minutes (m : Z) : Z := (m * 60)%Z.

Section Auth.

(** The bearer token is opaque to this program: it is produced by
    [jwt.encode] and only ever handed to [jwt.decode]. *)
Variable token : Type.

(** Process configuration, read from the environment at start-up. *)
Variable SECRET_KEY : string.
Variable ADMIN_USERNAME_ENV : string.
Variable ADMIN_PASSWORD_ENV : string.

(** [jwt.encode(claims, key, algorithm=ALGORITHM)] *)
Variable jwt_encode : payload -> string -> token.

(** [jwt.decode(token, key, algorithms=[ALGORITHM])], with the clock it
    reads made explicit. *)
Variable jwt_decode : Z -> token -> string -> JWTError + payload.

(** [utcnow] is [datetime.utcnow()]; a zero [timedelta] is falsy. *)
Definition create_access_token
    (utcnow : Z) (data : payload) (expires_delta : option Z) : token :=
  let to_encode := data in
  let expire :=
    match expires_delta with
    | Some delta =>
        if Z.eqb delta 0 then (utcnow + timedelta_minutes 15)%Z
        else (utcnow + delta)%Z
    | None => (utcnow + timedelta_minutes 15)%Z
    end in
  let to_encode := dict_set "exp" (CTime expire) to_encode in
  jwt_encode to_encode SECRET_KEY.

Definition credentials_exception : HTTPException :=
  {| status_code := 401;
     detail := "Could not validate credentials";
     headers := [("WWW-Authenticate", "Bearer")] |}.

Definition get_current_user (utcnow : Z) (tok : token)
  : HTTPException + claim_value :=
  match jwt_decode utcnow tok SECRET_KEY with
  | inl _ => inl credentials_exception
  | inr payload =>
      match dict_get "sub" payload with
      | None => inl credentials_exception
      | Some username =>
          if negb (claim_eqb username (CStr ADMIN_USERNAME_ENV))
          then inl credentials_exception
          else inr username
      end
  end.

Definition incorrect_login : HTTPException :=
  {| status_code := 401;
     detail := "Incorrect username or password";
     headers := [("WWW-Authenticate", "Bearer")] |}.

Definition login_for_access_token
    (utcnow : Z) (username password : string) : HTTPException + Token token :=
  if negb (String.eqb username ADMIN_USERNAME_ENV)
     || negb (String.eqb password ADMIN_PASSWORD_ENV)
  then inl incorrect_login
  else
    let access_token_expires := timedelta_minutes ACCESS_TOKEN_EXPIRE_MINUTES in
    let access_token :=
      create_access_token utcnow [("sub", CStr username)]
                          (Some access_token_expires) in
    inr {| access_token := access_token; token_type := "bearer" |}.

End Auth.

(** A symbolic token library, used to instantiate the section above: a
    token is either garbage or a payload together with the key that signed
    it; decoding checks the key, then, as [jose] does by default, the
    not-before time and the expiry of the claims. *)
Definition sym_token : Type := option (payload * string).

Definition sym_encode (claims : payload) (key : string) : sym_token :=
  Some (claims, key).

Definition sym_decode (utcnow : Z) (tok : sym_token) (key : string)
  : JWTError + payload :=
  match tok with
  | None => inl Malformed
  | Some (claims, k) =>
      if negb (String.eqb k key) then inl InvalidSignature
      else
        let not_yet_valid :=
          match dict_get "nbf" claims with
          | Some (CTime n) => (utcnow <? n)%Z
          | _ => false
          end in
        if not_yet_valid then inl JWTClaimsError
        else match dict_get "exp" claims with
             | Some (CTime e) =>
                 if (e <? utcnow)%Z then inl ExpiredSignature else inr claims
             | _ => inr claims
             end
  end.

(** ** Template store *)

(** A row of the [templates] table. *)
Record TemplateDB : Type := {
  id : string;
  name : string;
  content : string
}.

(** The request body [TemplateBase]; its fields are [name] and [content]. *)
Record TemplateBase : Type := {
  base_name : string;
  base_content : string
}.

(** The table, in storage order; [id] is its primary key. *)
Definition Session : Type := list TemplateDB.

Definition not_found : HTTPException :=
  {| status_code := 404; detail := "Template not found"; headers := [] |}.

(** An [INSERT] that repeats a primary key raises [IntegrityError], which
    nothing catches. *)
Definition integrity_error : HTTPException :=
  {| status_code := 500; detail := "Internal Server Error"; headers := [] |}.

(** [db.query(TemplateDB).filter(TemplateDB.id == template_id).first()] *)
Definition query_first (template_id : string) (db : Session) : option TemplateDB :=
  find (fun row => String.eqb (id row) template_id) db.

(** [db.query(TemplateDB).all()] *)
Definition get_templates (db : Session) (current_user : string) : list TemplateDB :=
  db.

(** [uuid] is the value of [str(uuid.uuid4())]. *)
Definition create_template
    (uuid : string) (template : TemplateBase) (db : Session) (current_user : string)
  : Session * (HTTPException + TemplateDB) :=
  let db_template :=
    {| id := uuid; name := base_name template; content := base_content template |} in
  match query_first uuid db with
  | Some _ => (db, inl integrity_error)
  | None => ((db ++ [db_template])%list, inr db_template)
  end.

(** The [UPDATE] the commit issues, addressed by primary key. *)
Definition assign (template_id : string) (template : TemplateBase) (row : TemplateDB)
  : TemplateDB :=
  if String.eqb (id row) template_id
  then {| id := id row; name := base_name template; content := base_content template |}
  else row.

Definition update_template
    (template_id : string) (template : TemplateBase) (db : Session)
    (current_user : string)
  : Session * (HTTPException + TemplateDB) :=
  match query_first template_id db with
  | None => (db, inl not_found)
  | Some db_template =>
      let db_template :=
        {| id := id db_template;
           name := base_name template;
           content := base_content template |} in
      let db := map (assign template_id template) db in
      (db, inr db_template)
  end.

Definition delete_template
    (template_id : string) (db : Session) (current_user : string)
  : Session * (HTTPException + dict) :=
  match query_first template_id db with
  | None => (db, inl not_found)
  | Some db_template =>
      let db := filter (fun row => negb (String.eqb (id row) template_id)) db in
      (db, inr [("message", "Template deleted")])
  end.

(** ** The description's notions, stated independently of the code *)

(** [k] occurs in [s] as a literal substring. *)
Definition occurs (k s : string) : Prop := exists a b, s = a ++ k ++ b.

(** The occurrence of [k] after [a] is the first one of [a ++ k ++ b]. *)
Definition leftmost (k a b : string) : Prop :=
  forall a' b', a ++ k ++ b = a' ++ k ++ b' -> String.length a <= String.length a'.

(** The characters of [s], each as a one-character string. *)
Definition chars (s : string) : list string :=
  map (fun c => String c "") (list_ascii_of_string s).

(** [v] put between every two adjacent characters of [s] and at both ends. *)
Definition inserted_everywhere (v s : string) : string :=
  String.concat v ("" :: chars s ++ [""])%list.

(** Every occurrence of [k] replaced by [v], scanning from the left: the
    first occurrence is replaced and the scan goes on after it. *)
Inductive replaced_all (k v : string) : string -> string -> Prop :=
| replaced_absent s :
    ~ occurs k s -> replaced_all k v s s
| replaced_leftmost a b b' :
    k <> "" -> leftmost k a b -> replaced_all k v b b' ->
    replaced_all k v (a ++ k ++ b) (a ++ v ++ b')
| replaced_empty s :
    k = "" -> replaced_all k v s (inserted_everywhere v s).

(** The renderer of the description: entries in order, each applied to the
    current body when its key occurs there, one count per applied key. *)
Inductive applies : dict -> string * nat -> string * nat -> Prop :=
| applies_done st : applies [] st st
| applies_hit k v m body body' count out :
    occurs k body -> replaced_all k v body body' ->
    applies m (body', S count) out ->
    applies ((k, v) :: m) (body, count) out
| applies_miss k v m body count out :
    ~ occurs k body ->
    applies m (body, count) out ->
    applies ((k, v) :: m) (body, count) out.

(** Every character of [s] is in the class. *)
Fixpoint all (cls : ascii -> bool) (s : string) : bool :=
  match s with
  | "" => true
  | String c s' => cls c && all cls s'
  end.

(** The stripped line reads [**raw:**rest], [raw] is not empty, and no
    shorter non-empty [raw] would do: the marker is the first one. *)
Definition annotated (line raw rest : string) : Prop :=
  line = "**" ++ raw ++ ":**" ++ rest
  /\ raw <> ""
  /\ forall raw' rest', raw' <> "" -> line = "**" ++ raw' ++ ":**" ++ rest' ->
       String.length raw <= String.length raw'.

(** The keys of [l], each at its first occurrence. *)
Fixpoint first_occurrences (l : list string) : list string :=
  match l with
  | [] => []
  | x :: l' => x :: filter (fun y => negb (String.eqb y x)) (first_occurrences l')
  end.

(** The value of the last entry of [es] under key [k]. *)
Fixpoint last_value (k : string) (es : list (string * string)) : option string :=
  match es with
  | [] => None
  | (k', v) :: es' =>
      match last_value k es' with
      | Some v' => Some v'
      | None => if String.eqb k k' then Some v else None
      end
  end.

(** What one line contributes to the mapping, if anything. *)
Definition line_entry (line : string) : option (string * string) :=
  match parse_line [] line with
  | [kv] => Some kv
  | _ => None
  end.

(** The entries extracted from a text, line by line. *)
Definition extracted (text : string) : list (string * string) :=
  flat_map (fun line => match line_entry line with
                        | Some kv => [kv]
                        | None => []
                        end)
           (PyStr.split PyStr.newline text).

(** ** Database configuration *)

(** [s.replace(old, new, 1)]: the first occurrence only. *)
Fixpoint replace_first (old new s : string) {struct s} : string :=
  if PyStr.startswith old s then new ++ PyStr.drop (String.length old) s
  else match s with
       | "" => ""
       | String c s' => String c (replace_first old new s')
       end.

(** [os.getenv(name, default)], [value] being what the environment holds
    under the name. *)
Definition getenv (value : option string) (default : string) : string :=
  match value with
  | Some v => v
  | None => default
  end.

(** The module-level [DATABASE_URL] once the scheme has been rewritten;
    the empty string is falsy. *)
Definition DATABASE_URL (env : option string) : string :=
  let url := getenv env "sqlite:///./sql_app.db" in
  if negb (String.eqb url "") && PyStr.startswith "postgres://" url
  then replace_first "postgres://" "postgresql://" url
  else url.

(** ** Auxiliary definitions of the proofs *)

(** The first way of cutting the text after the leading asterisks into a
    non-empty key and a remainder that begins with the closing marker. *)
Definition split_marker (line : string) : option (string * string) :=
  if PyStr.startswith "**" line then
    match find (fun a => PyStr.startswith ":**" (snd a))
               (Re.lazy_plus Re.dot (PyStr.drop 2 line)) with
    | Some (raw, r) => Some (raw, PyStr.drop 3 r)
    | None => None
    end
  else None.

(** The parts of the line pattern, from its end. *)
Definition value_pattern : Re.regex :=
  Re.Seq (Re.GreedyStar PyStr.is_space) (Re.Group (Re.GreedyStar Re.dot)).

Definition marker_pattern : Re.regex := Re.Seq (Re.Lit ":**") value_pattern.

Definition key_pattern : Re.regex :=
  Re.Seq (Re.Group (Re.LazyPlus Re.dot)) marker_pattern.

(** Inserting the entries one by one. *)
Definition set_entry (d : dict) (kv : string * string) : dict :=
  dict_set (fst kv) (snd kv) d.

(** [d.update(d2)]: the entries of [d2] set one by one, in their order. *)
Definition dict_update (d d2 : dict) : dict := fold_left set_entry d2 d.

(** ** Facts about strings *)

Section StringFacts.

Lemma append_empty_r (s : string) : s ++ "" = s.
Proof. induction s as [|c s IH]; simpl; [reflexivity | now rewrite IH]. Qed.

Lemma append_assoc (a b c : string) : (a ++ b) ++ c = a ++ b ++ c.
Proof. induction a as [|x a IH]; simpl; [reflexivity | now rewrite IH]. Qed.

Lemma length_append (a b : string) :
  String.length (a ++ b) = String.length a + String.length b.
Proof. induction a as [|x a IH]; simpl; [reflexivity | now rewrite IH]. Qed.

Lemma length_zero (s : string) : String.length s = 0 -> s = "".
Proof. destruct s; simpl; [reflexivity | discriminate]. Qed.

Lemma append_inv_head (a b c : string) : a ++ b = a ++ c -> b = c.
Proof.
  induction a as [|x a IH]; simpl; intros H; [exact H|].
  injection H as H. now apply IH.
Qed.

(** Two splittings of one string: the shorter head is a prefix of the
    longer one. *)
Lemma append_split (a b a' b' : string) :
  a ++ b = a' ++ b' -> String.length a' <= String.length a ->
  exists m, a = a' ++ m /\ b' = m ++ b.
Proof.
  revert a. induction a' as [|x a' IH]; intros a H Hlen; simpl in *.
  - exists a. now split.
  - destruct a as [|y a]; simpl in *; [lia|].
    injection H as -> H.
    destruct (IH a H ltac:(lia)) as [m [-> ->]].
    exists m. now split.
Qed.

Lemma append_same_length (a b a' b' : string) :
  a ++ b = a' ++ b' -> String.length a = String.length a' ->
  a = a' /\ b = b'.
Proof.
  intros H Hlen.
  destruct (append_split a b a' b' H ltac:(lia)) as [m [Ha Hb]].
  assert (m = "") as ->.
  { apply length_zero. rewrite Ha, length_append in Hlen. lia. }
  rewrite append_empty_r in Ha. now subst.
Qed.

Lemma startswith_spec (p s : string) :
  PyStr.startswith p s = true <-> exists r, s = p ++ r.
Proof.
  revert s. induction p as [|a p IH]; intros s; simpl.
  - split; [intros _; now exists s | reflexivity].
  - destruct s as [|b s].
    + split; [discriminate | intros [r Hr]; discriminate].
    + rewrite andb_true_iff, Ascii.eqb_eq, IH. split.
      * intros [-> [r ->]]. now exists r.
      * intros [r Hr]. injection Hr as -> ->. split; [reflexivity | now exists r].
Qed.

Lemma startswith_append (p r : string) : PyStr.startswith p (p ++ r) = true.
Proof. apply startswith_spec. now exists r. Qed.

Lemma drop_append (p r : string) : PyStr.drop (String.length p) (p ++ r) = r.
Proof. induction p as [|a p IH]; simpl; [now destruct r | exact IH]. Qed.

Lemma occurs_here (k s : string) : PyStr.startswith k s = true -> occurs k s.
Proof.
  intros H. apply startswith_spec in H as [r ->]. now exists "", r.
Qed.

Lemma occurs_later (k s : string) (c : ascii) : occurs k s -> occurs k (String c s).
Proof. intros [a [b ->]]. now exists (String c a), b. Qed.

Lemma occurs_cons (k s : string) (c : ascii) :
  occurs k (String c s) -> PyStr.startswith k (String c s) = true \/ occurs k s.
Proof.
  intros [a [b H]]. destruct a as [|x a]; simpl in H.
  - left. apply startswith_spec. now exists b.
  - right. injection H as _ ->. now exists a, b.
Qed.

(** Python's [in] decides [occurs]. *)
Lemma contains_spec (k s : string) : PyStr.contains k s = true <-> occurs k s.
Proof.
  induction s as [|c s IH]; simpl.
  - rewrite orb_false_r. split; [apply occurs_here|].
    intros [a [b H]]. destruct a; [|discriminate].
    destruct k; [reflexivity | discriminate].
  - rewrite orb_true_iff, IH. split.
    + intros [H|H]; [now apply occurs_here | now apply occurs_later].
    + apply occurs_cons.
Qed.

Lemma contains_false (k s : string) : PyStr.contains k s = false <-> ~ occurs k s.
Proof.
  split.
  - intros H Ho. apply contains_spec in Ho. congruence.
  - intros H. destruct (PyStr.contains k s) eqn:E; [|reflexivity].
    exfalso. apply H. now apply contains_spec.
Qed.

Lemma occurs_empty (s : string) : occurs "" s.
Proof. now exists "", s. Qed.

Lemma occurs_trans (a b c : string) : occurs a b -> occurs b c -> occurs a c.
Proof.
  intros [x [y ->]] [u [w ->]]. exists (u ++ x), (y ++ w).
  now rewrite !append_assoc.
Qed.

Lemma occurs_append_r (k a b : string) : occurs k b -> occurs k (a ++ b).
Proof.
  intros [x [y ->]]. exists (a ++ x), y. now rewrite append_assoc.
Qed.

Lemma occurs_append_l (k a b : string) : occurs k a -> occurs k (a ++ b).
Proof.
  intros [x [y ->]]. exists x, (y ++ b). now rewrite !append_assoc.
Qed.

End StringFacts.

(** ** Facts about [str.replace] *)

Section ReplaceFacts.

Lemma replace_scan_skip (old new : string) (n : nat) (s : string) :
  PyStr.replace_scan old new n s = PyStr.replace_scan old new 0 (PyStr.drop n s).
Proof.
  revert n. induction s as [|c s IH]; intros [|n]; try reflexivity.
  simpl PyStr.drop. simpl PyStr.replace_scan at 1. apply IH.
Qed.

Lemma replace_scan_hit (old new b : string) :
  old <> "" ->
  PyStr.replace_scan old new 0 (old ++ b) = new ++ PyStr.replace_scan old new 0 b.
Proof.
  intros Hne. destruct old as [|c o]; [congruence|].
  assert (Hs : PyStr.startswith (String c o) (String c (o ++ b)) = true)
    by apply (startswith_append (String c o) b).
  change (String c o ++ b) with (String c (o ++ b)).
  cbn [PyStr.replace_scan]. rewrite Hs. f_equal.
  cbn [String.length]. rewrite Nat.sub_succ, Nat.sub_0_r.
  rewrite replace_scan_skip. now rewrite drop_append.
Qed.

Lemma replace_scan_miss (old new : string) (c : ascii) (s : string) :
  PyStr.startswith old (String c s) = false ->
  PyStr.replace_scan old new 0 (String c s)
  = String c (PyStr.replace_scan old new 0 s).
Proof. intros H. simpl PyStr.replace_scan. now rewrite H. Qed.

Lemma leftmost_here (old b : string) : leftmost old "" b.
Proof. intros a' b' _. simpl. lia. Qed.

Lemma leftmost_cons (old : string) (x : ascii) (a b : string) :
  leftmost old (String x a) b ->
  PyStr.startswith old (String x a ++ old ++ b) = false /\ leftmost old a b.
Proof.
  intros H. split.
  - destruct (PyStr.startswith old (String x a ++ old ++ b)) eqn:E; [|reflexivity].
    apply startswith_spec in E as [r Hr].
    specialize (H "" r Hr). simpl in H. lia.
  - intros a' b' Heq. specialize (H (String x a') b'). simpl in H.
    rewrite Heq in H. specialize (H eq_refl). lia.
Qed.

Lemma leftmost_later (old : string) (x : ascii) (a b : string) :
  PyStr.startswith old (String x a ++ old ++ b) = false ->
  leftmost old a b -> leftmost old (String x a) b.
Proof.
  intros Hf H a' b' Heq. destruct a' as [|y a'].
  - cbn [append] in Heq, Hf. rewrite Heq, startswith_append in Hf. discriminate.
  - cbn [append] in Heq. injection Heq as _ Heq.
    specialize (H a' b' Heq). simpl. lia.
Qed.

(** An occurrence has a first one. *)
Lemma occurs_leftmost (old s : string) :
  occurs old s -> exists a b, s = a ++ old ++ b /\ leftmost old a b.
Proof.
  induction s as [|c s IH]; intros Ho.
  - destruct Ho as [a [b H]]. destruct a; [|discriminate].
    exists "", b. split; [exact H | apply leftmost_here].
  - destruct (PyStr.startswith old (String c s)) eqn:E.
    + apply startswith_spec in E as [r Hr]. exists "", r.
      split; [exact Hr | apply leftmost_here].
    + apply occurs_cons in Ho as [Ho|Ho]; [congruence|].
      destruct (IH Ho) as [a [b [-> Hl]]].
      exists (String c a), b. split; [reflexivity|].
      now apply leftmost_later.
Qed.

Lemma replace_absent (old new s : string) :
  ~ occurs old s -> PyStr.replace old new s = s.
Proof.
  intros Hno. unfold PyStr.replace. destruct old as [|c o] eqn:E.
  - exfalso. apply Hno, occurs_empty.
  - rewrite <- E in *. clear E c o. induction s as [|x s IH]; [reflexivity|].
    rewrite replace_scan_miss.
    + f_equal. apply IH. intros Ho. now apply Hno, occurs_later.
    + destruct (PyStr.startswith old (String x s)) eqn:Es; [|reflexivity].
      exfalso. now apply Hno, occurs_here.
Qed.

Lemma replace_leftmost (old new a b : string) :
  old <> "" -> leftmost old a b ->
  PyStr.replace old new (a ++ old ++ b) = a ++ new ++ PyStr.replace old new b.
Proof.
  intros Hne. unfold PyStr.replace. destruct old as [|c o] eqn:E; [congruence|].
  rewrite <- E in *. clear E c o. induction a as [|x a IH]; intros Hl.
  - simpl. now apply replace_scan_hit.
  - apply leftmost_cons in Hl as [Hf Hl]. simpl append at 1.
    simpl append in Hf. rewrite replace_scan_miss by exact Hf.
    simpl. f_equal. now apply IH.
Qed.

Lemma concat_cons (new x : string) (l : list string) :
  l <> [] -> String.concat new (x :: l) = x ++ new ++ String.concat new l.
Proof. destruct l; [congruence | reflexivity]. Qed.

Lemma interleave_inserted (new s : string) :
  PyStr.interleave new s = inserted_everywhere new s.
Proof.
  unfold inserted_everywhere, chars.
  induction s as [|c s IH].
  - simpl. now rewrite append_empty_r.
  - simpl PyStr.interleave. rewrite IH.
    cbn [list_ascii_of_string map List.app].
    set (rest := (map _ (list_ascii_of_string s) ++ [""])%list).
    assert (Hrest : rest <> [])
      by (subst rest; destruct (list_ascii_of_string s); discriminate).
    rewrite (concat_cons new "" (_ :: rest)) by discriminate.
    rewrite (concat_cons new (String c "") rest) by assumption.
    rewrite (concat_cons new "" rest) by assumption.
    reflexivity.
Qed.

(** The code's replacement meets the description's, and nothing else does. *)
Lemma replaced_all_replace (old new s : string) :
  replaced_all old new s (PyStr.replace old new s).
Proof.
  destruct (string_dec old "") as [Hk|Hk].
  - assert (PyStr.replace old new s = inserted_everywhere new s) as ->.
    { rewrite Hk. apply interleave_inserted. }
    now apply replaced_empty.
  - remember (String.length s) as n eqn:Hn. revert s Hn.
    induction n as [n IH] using lt_wf_ind. intros s Hn.
    destruct (PyStr.contains old s) eqn:E.
    + apply contains_spec, occurs_leftmost in E as [a [b [-> Hl]]].
      rewrite replace_leftmost by assumption.
      apply replaced_leftmost; try assumption.
      apply (IH (String.length b)); [|reflexivity].
      rewrite Hn, !length_append.
      destruct old; [congruence | simpl; lia].
    + apply contains_false in E. rewrite replace_absent by exact E.
      now apply replaced_absent.
Qed.

Lemma replaced_all_unique (old new s s' : string) :
  replaced_all old new s s' -> s' = PyStr.replace old new s.
Proof.
  induction 1 as [s Hno | a b b' Hne Hl _ IH | s Hk].
  - now rewrite replace_absent.
  - rewrite replace_leftmost by assumption. now rewrite IH.
  - rewrite Hk. symmetry. apply interleave_inserted.
Qed.

(** After a replacement the new text occurs in the result. *)
Lemma replace_leaves_new (old new s : string) :
  occurs old s -> occurs new (PyStr.replace old new s).
Proof.
  intros Ho. destruct (string_dec old "") as [Hk|Hk].
  - rewrite Hk. cbn [PyStr.replace]. destruct s; cbn [PyStr.interleave].
    + exists "", "". now rewrite append_empty_r.
    + eexists "", _. reflexivity.
  - apply occurs_leftmost in Ho as [a [b [-> Hl]]].
    rewrite replace_leftmost by assumption. now eexists a, _.
Qed.

End ReplaceFacts.

(** ** Facts about the renderer *)

Section RenderFacts.

Lemma render_step_hit (k v body : string) (count : nat) :
  occurs k body ->
  render_step (body, count) (k, v) = (PyStr.replace k v body, S count).
Proof.
  intros H. apply contains_spec in H. simpl. rewrite H. f_equal. lia.
Qed.

Lemma render_step_miss (k v body : string) (count : nat) :
  ~ occurs k body -> render_step (body, count) (k, v) = (body, count).
Proof. intros H. apply contains_false in H. simpl. now rewrite H. Qed.

Lemma applies_fold (m : dict) (body : string) (count : nat) :
  applies m (body, count) (fold_left render_step m (body, count)).
Proof.
  revert body count. induction m as [|[k v] m IH]; intros body count.
  - apply applies_done.
  - cbn [fold_left]. destruct (PyStr.contains k body) eqn:E.
    + apply contains_spec in E. rewrite render_step_hit by exact E.
      eapply applies_hit; [exact E | apply replaced_all_replace | apply IH].
    + apply contains_false in E. rewrite render_step_miss by exact E.
      apply applies_miss; [exact E | apply IH].
Qed.

Lemma applies_unique (m : dict) (st out : string * nat) :
  applies m st out -> out = fold_left render_step m st.
Proof.
  induction 1 as [st | k v m body body' count out Ho Hr _ IH
                     | k v m body count out Hno _ IH].
  - reflexivity.
  - cbn [fold_left]. rewrite render_step_hit by exact Ho.
    now rewrite <- (replaced_all_unique _ _ _ _ Hr).
  - cbn [fold_left]. now rewrite render_step_miss.
Qed.

Lemma render_count_bound (m : dict) (body : string) (count : nat) :
  snd (fold_left render_step m (body, count)) <= count + List.length m.
Proof.
  revert body count. induction m as [|[k v] m IH]; intros body count.
  - simpl. lia.
  - cbn [fold_left]. destruct (PyStr.contains k body) eqn:E.
    + apply contains_spec in E. rewrite render_step_hit by exact E.
      specialize (IH (PyStr.replace k v body) (S count)). simpl List.length. lia.
    + apply contains_false in E. rewrite render_step_miss by exact E.
      specialize (IH body count). simpl List.length. lia.
Qed.

Lemma render_fold_count (m : dict) (body : string) (count : nat) :
  fold_left render_step m (body, count)
  = (fst (fold_left render_step m (body, 0)),
     count + snd (fold_left render_step m (body, 0))).
Proof.
  revert body count. induction m as [|[k v] m IH]; intros body count.
  - simpl. f_equal. lia.
  - cbn [fold_left]. destruct (PyStr.contains k body) eqn:E.
    + apply contains_spec in E. rewrite !render_step_hit by exact E.
      rewrite (IH _ (S count)), (IH _ 1). simpl. f_equal. lia.
    + apply contains_false in E. rewrite !render_step_miss by exact E.
      apply IH.
Qed.

Lemma render_append (m1 m2 : dict) (body : string) :
  render (m1 ++ m2)%list body
  = (fst (render m2 (fst (render m1 body))),
     snd (render m1 body) + snd (render m2 (fst (render m1 body)))).
Proof.
  unfold render. rewrite fold_left_app.
  destruct (fold_left render_step m1 (body, 0)) as [b1 c1]. simpl fst. simpl snd.
  apply render_fold_count.
Qed.

End RenderFacts.

(** ** Facts about stripping and splitting *)

Section StripFacts.

Lemma all_append (cls : ascii -> bool) (a b : string) :
  all cls (a ++ b) = all cls a && all cls b.
Proof.
  induction a as [|x a IH]; simpl; [reflexivity|].
  now rewrite IH, andb_assoc.
Qed.

Lemma lstrip_idempotent (s : string) : PyStr.lstrip (PyStr.lstrip s) = PyStr.lstrip s.
Proof.
  induction s as [|c s IH]; simpl; [reflexivity|].
  destruct (PyStr.is_space c) eqn:E; [exact IH|]. simpl. now rewrite E.
Qed.

Lemma strip_lstrip (s : string) : PyStr.strip (PyStr.lstrip s) = PyStr.strip s.
Proof. unfold PyStr.strip. now rewrite lstrip_idempotent. Qed.

Lemma lstrip_all (cls : ascii -> bool) (s : string) :
  all cls s = true -> all cls (PyStr.lstrip s) = true.
Proof.
  induction s as [|c s IH]; simpl; [reflexivity|].
  intros H. apply andb_true_iff in H as [Hc Hs].
  destruct (PyStr.is_space c); [now apply IH|]. simpl. now rewrite Hc, Hs.
Qed.

Lemma rstrip_all (cls : ascii -> bool) (s : string) :
  all cls s = true -> all cls (PyStr.rstrip s) = true.
Proof.
  induction s as [|c s IH]; simpl; [reflexivity|].
  intros H. apply andb_true_iff in H as [Hc Hs]. specialize (IH Hs).
  destruct (PyStr.rstrip s) as [|y r].
  - destruct (PyStr.is_space c); simpl; [reflexivity | now rewrite Hc].
  - cbn [all] in *. now rewrite Hc, IH.
Qed.

Lemma strip_all (cls : ascii -> bool) (s : string) :
  all cls s = true -> all cls (PyStr.strip s) = true.
Proof. intros H. now apply rstrip_all, lstrip_all. Qed.

Lemma lstrip_nonspace (c : ascii) (s : string) :
  PyStr.is_space c = false -> PyStr.lstrip (String c s) = String c s.
Proof. intros H. simpl. now rewrite H. Qed.

(** Stripping on the right stops at the last character that is not a
    space. *)
Lemma rstrip_append (a b : string) :
  PyStr.rstrip (a ++ b)
  = match PyStr.rstrip b with
    | "" => PyStr.rstrip a
    | String _ _ => a ++ PyStr.rstrip b
    end.
Proof.
  induction a as [|x a IH]; cbn [append PyStr.rstrip].
  - now destruct (PyStr.rstrip b).
  - rewrite IH. destruct (PyStr.rstrip b) as [|y r]; [reflexivity|].
    now destruct a.
Qed.

Lemma rstrip_all_space (s : string) :
  all PyStr.is_space s = true -> PyStr.rstrip s = "".
Proof.
  induction s as [|c s IH]; simpl; [reflexivity|].
  intros H. apply andb_true_iff in H as [Hc Hs]. now rewrite (IH Hs), Hc.
Qed.

Lemma lstrip_all_space (s : string) :
  all PyStr.is_space s = true -> PyStr.lstrip s = "".
Proof.
  induction s as [|c s IH]; simpl; [reflexivity|].
  intros H. apply andb_true_iff in H as [Hc Hs]. now rewrite Hc, (IH Hs).
Qed.

Lemma split_nonempty (sep : ascii) (s : string) : PyStr.split sep s <> [].
Proof.
  induction s as [|c s IH]; simpl; [discriminate|].
  destruct (Ascii.eqb c sep); [discriminate|].
  destruct (PyStr.split sep s); discriminate.
Qed.

(** A line of [text.split('\n')] holds no newline. *)
Lemma split_lines_dot (s line : string) :
  In line (PyStr.split PyStr.newline s) -> all Re.dot line = true.
Proof.
  revert line. induction s as [|c s IH]; intros line; simpl.
  - intros [<-|[]]. reflexivity.
  - destruct (Ascii.eqb c PyStr.newline) eqn:E.
    + intros [<-|H]; [reflexivity | now apply IH].
    + destruct (PyStr.split PyStr.newline s) as [|piece pieces] eqn:Es.
      * now destruct (split_nonempty PyStr.newline s).
      * intros [<-|H].
        -- simpl. unfold Re.dot at 1. rewrite E. simpl.
           apply IH. now left.
        -- apply IH. now right.
Qed.

(** A text without a newline is its own single line. *)
Lemma split_single (s : string) :
  all Re.dot s = true -> PyStr.split PyStr.newline s = [s].
Proof.
  induction s as [|c s IH]; simpl; [reflexivity|].
  intros H. apply andb_true_iff in H as [Hc Hs]. unfold Re.dot in Hc.
  apply negb_true_iff in Hc. rewrite Hc, (IH Hs). reflexivity.
Qed.

End StripFacts.

(** ** Facts about the matcher and the line pattern *)

Section MatcherFacts.

Lemma find_map_extend (P : string -> bool) (c : ascii) (l : list (string * string)) :
  find (fun a => P (snd a)) (map (Re.extend c) l)
  = option_map (Re.extend c) (find (fun a => P (snd a)) l).
Proof.
  induction l as [|a l IH]; simpl; [reflexivity|].
  destruct (P (snd a)); [reflexivity | exact IH].
Qed.

(** The lazy run tries the non-empty prefixes shortest first, so the
    first success is the shortest prefix whose remainder passes. *)
Lemma lazy_plus_find (cls : ascii -> bool) (P : string -> bool) (s : string) :
  all cls s = true ->
  forall k r,
    find (fun a => P (snd a)) (Re.lazy_plus cls s) = Some (k, r)
    <-> (s = k ++ r /\ k <> "" /\ P r = true
         /\ forall k' r', k' <> "" -> s = k' ++ r' -> P r' = true ->
              String.length k <= String.length k').
Proof.
  induction s as [|c s IH]; intros Hall k r.
  - simpl. split; [discriminate|].
    intros [H [Hk _]]. destruct k; [congruence | discriminate].
  - cbn [all] in Hall. apply andb_true_iff in Hall as [Hc Hs].
    cbn [Re.lazy_plus]. rewrite Hc. cbn [find snd].
    destruct (P s) eqn:EP.
    + split.
      * intros H. injection H as <- <-. repeat split; try assumption.
        -- discriminate.
        -- intros k' r' Hk' _ _. destruct k'; [congruence | simpl; lia].
      * intros [Heq [Hk [_ Hmin]]].
        specialize (Hmin (String c "") s ltac:(discriminate) eq_refl EP).
        destruct k as [|x k]; [congruence|]. destruct k; [|simpl in Hmin; lia].
        simpl in Heq. now injection Heq as <- <-.
    + rewrite find_map_extend. split.
      * intros H.
        destruct (find (fun a => P (snd a)) (Re.lazy_plus cls s)) as [[k1 r1]|] eqn:Ef;
          [|discriminate].
        simpl in H. injection H as <- <-.
        destruct (proj1 (IH Hs k1 r1) eq_refl) as [-> [Hk1 [HP Hmin]]].
        repeat split; try assumption; try discriminate.
        intros k' r' Hk' Heq HP'. destruct k' as [|y k']; [congruence|].
        simpl in Heq. injection Heq as _ Heq.
        destruct k' as [|z k'].
        -- simpl in Heq. subst r'. congruence.
        -- specialize (Hmin (String z k') r' ltac:(discriminate) Heq HP').
           simpl in *. lia.
      * intros [Heq [Hk [HP Hmin]]].
        destruct k as [|x k]; [congruence|]. simpl in Heq. injection Heq as <- Heq.
        assert (Hk1 : k <> "").
        { intros ->. simpl in Heq. subst r. congruence. }
        assert (Ef : find (fun a => P (snd a)) (Re.lazy_plus cls s) = Some (k, r)).
        { apply (IH Hs). repeat split; try assumption.
          intros k' r' Hk' Heq' HP'.
          specialize (Hmin (String c k') r' ltac:(discriminate)).
          simpl in Hmin. rewrite Heq' in Hmin. specialize (Hmin eq_refl HP'). lia. }
        now rewrite Ef.
Qed.

Lemma split_marker_spec (line raw rest : string) :
  all Re.dot line = true ->
  split_marker line = Some (raw, rest) <-> annotated line raw rest.
Proof.
  intros Hall. unfold split_marker, annotated.
  destruct (PyStr.startswith "**" line) eqn:Es.
  - apply startswith_spec in Es as [s ->].
    change (PyStr.drop 2 ("**" ++ s)) with s.
    assert (Hs : all Re.dot s = true) by exact Hall.
    pose proof (lazy_plus_find Re.dot (PyStr.startswith ":**") s Hs) as Hfind.
    split.
    + intros H.
      destruct (find _ (Re.lazy_plus Re.dot s)) as [[k r]|] eqn:Ef; [|discriminate].
      injection H as <- <-.
      destruct (proj1 (Hfind k r) eq_refl) as [-> [Hk [HP Hmin]]].
      apply startswith_spec in HP as [rest ->].
      change (PyStr.drop 3 (":**" ++ rest)) with rest.
      repeat split; try assumption.
      intros raw' rest' Hraw' Heq. apply (Hmin raw' (":**" ++ rest') Hraw').
      * now apply (append_inv_head "**").
      * apply startswith_append.
    + intros [Heq [Hk Hmin]]. apply (append_inv_head "**") in Heq. subst s.
      assert (Ef : find (fun a => PyStr.startswith ":**" (snd a))
                        (Re.lazy_plus Re.dot (raw ++ ":**" ++ rest))
                   = Some (raw, ":**" ++ rest)).
      { apply Hfind. repeat split; try assumption.
        intros k' r' Hk' Heq HP. apply startswith_spec in HP as [rest' ->].
        apply (Hmin k' rest' Hk'). now rewrite Heq. }
      now rewrite Ef.
  - split; [discriminate|]. intros [-> _].
    rewrite startswith_append in Es. discriminate.
Qed.

Lemma annotated_unique (line raw rest raw' rest' : string) :
  annotated line raw rest -> annotated line raw' rest' ->
  raw = raw' /\ rest = rest'.
Proof.
  intros [H1 [Hk1 Hmin1]] [H2 [Hk2 Hmin2]].
  pose proof (Hmin1 raw' rest' Hk2 H2). pose proof (Hmin2 raw rest Hk1 H1).
  rewrite H1 in H2. apply (append_inv_head "**") in H2.
  apply append_same_length in H2 as [-> H2]; [|lia].
  split; [reflexivity|]. now apply (append_inv_head ":**").
Qed.

End MatcherFacts.

(** ** The pattern tried on a line *)

Section PatternFacts.

Lemma all_drop (cls : ascii -> bool) (n : nat) (s : string) :
  all cls s = true -> all cls (PyStr.drop n s) = true.
Proof.
  revert n. induction s as [|c s IH]; intros [|n] H; try exact H.
  simpl. apply IH. simpl in H. now apply andb_true_iff in H as [_ H].
Qed.

Lemma greedy_star_all (cls : ascii -> bool) (s : string) :
  all cls s = true -> exists l, Re.greedy_star cls s = (s, "") :: l.
Proof.
  induction s as [|c s IH]; simpl; intros H.
  - now exists [].
  - apply andb_true_iff in H as [Hc Hs]. rewrite Hc.
    destruct (IH Hs) as [l ->]. simpl. eexists. reflexivity.
Qed.

Lemma greedy_star_space (s : string) :
  exists w l, Re.greedy_star PyStr.is_space s = (w, PyStr.lstrip s) :: l.
Proof.
  induction s as [|c s [w [l IH]]]; simpl.
  - now exists "", [].
  - destruct (PyStr.is_space c).
    + rewrite IH. simpl. eexists _, _. reflexivity.
    + eexists _, _. reflexivity.
Qed.

(** The greedy tail: all the leading spaces, then the rest of the line. *)
Lemma run_value (b : bool) (s : string) :
  all Re.dot s = true ->
  exists t l, Re.run value_pattern b s = (t, [PyStr.lstrip s], "") :: l.
Proof.
  intros Hall. cbn [value_pattern Re.run].
  destruct (greedy_star_space s) as [w [l ->]].
  destruct (greedy_star_all Re.dot (PyStr.lstrip s) (lstrip_all _ _ Hall)) as [l' Hg].
  cbn [map flat_map fst snd]. rewrite Hg. cbn [map fst snd List.app].
  eexists _, _. reflexivity.
Qed.

Lemma run_marker_miss (b : bool) (s : string) :
  PyStr.startswith ":**" s = false -> Re.run marker_pattern b s = [].
Proof. intros H. cbn [marker_pattern Re.run]. now rewrite H. Qed.

Lemma run_marker_hit (b : bool) (s : string) :
  all Re.dot s = true -> PyStr.startswith ":**" s = true ->
  exists t l,
    Re.run marker_pattern b s = (t, [PyStr.lstrip (PyStr.drop 3 s)], "") :: l.
Proof.
  intros Hall H. cbn [marker_pattern Re.run]. rewrite H.
  destruct (run_value (b && Re.is_empty ":**") (PyStr.drop 3 s) (all_drop _ 3 _ Hall))
    as [t [l Hv]].
  cbn [flat_map String.length]. rewrite Hv. cbn [map List.app].
  eexists _, _. reflexivity.
Qed.

Lemma lazy_plus_rest_all (cls : ascii -> bool) (s : string) :
  all cls s = true ->
  Forall (fun a => all cls (snd a) = true) (Re.lazy_plus cls s).
Proof.
  induction s as [|c s IH]; simpl; intros H; [constructor|].
  apply andb_true_iff in H as [Hc Hs]. rewrite Hc. constructor; [exact Hs|].
  apply Forall_map. simpl. now apply IH.
Qed.

(** Backtracking over the candidate keys stops at the first one that is
    followed by the marker. *)
Lemma run_candidates (b : bool) (cands : list (string * string)) :
  Forall (fun a => all Re.dot (snd a) = true) cands ->
  let tries :=
    flat_map (fun a : Re.attempt =>
                let '(t1, g1, rest1) := a in
                map (fun b : Re.attempt =>
                       let '(t2, g2, rest2) := b in
                       (t1 ++ t2, (g1 ++ g2)%list, rest2))
                    (Re.run marker_pattern (b && Re.is_empty t1) rest1))
             (map (fun a : Re.attempt =>
                     let '(txt, gs, rest) := a in (txt, txt :: gs, rest))
                  (map (fun a => (fst a, [], snd a)) cands)) in
  match find (fun a => PyStr.startswith ":**" (snd a)) cands with
  | Some (raw, r) =>
      exists t l, tries = (t, [raw; PyStr.lstrip (PyStr.drop 3 r)], "") :: l
  | None => tries = []
  end.
Proof.
  induction 1 as [|[k r] cands Hr _ IH]; [reflexivity|].
  cbn [map flat_map find fst snd] in *.
  destruct (PyStr.startswith ":**" r) eqn:E.
  - destruct (run_marker_hit (b && Re.is_empty k) r Hr E) as [t [l ->]].
    cbn [map List.app]. eexists _, _. reflexivity.
  - rewrite (run_marker_miss (b && Re.is_empty k) r E). cbn [map List.app]. exact IH.
Qed.

Lemma run_key (b : bool) (s : string) :
  all Re.dot s = true ->
  match find (fun a => PyStr.startswith ":**" (snd a)) (Re.lazy_plus Re.dot s) with
  | Some (raw, r) =>
      exists t l,
        Re.run key_pattern b s = (t, [raw; PyStr.lstrip (PyStr.drop 3 r)], "") :: l
  | None => Re.run key_pattern b s = []
  end.
Proof.
  intros Hall. exact (run_candidates b _ (lazy_plus_rest_all Re.dot s Hall)).
Qed.

(** A pattern that opens with the start anchor matches nowhere but at the
    start of the subject. *)
Lemma run_anchored_later (r : Re.regex) (s : string) :
  Re.run (Re.Seq Re.Bol r) false s = [].
Proof. reflexivity. Qed.

Lemma search_anchored_later (r : Re.regex) (s : string) :
  Re.search_from (Re.Seq Re.Bol r) false s = None.
Proof.
  induction s as [|c s IH]; cbn [Re.search_from]; rewrite run_anchored_later;
    [reflexivity | exact IH].
Qed.

Lemma search_anchored (r : Re.regex) (s : string) :
  Re.search (Re.Seq Re.Bol r) s
  = match Re.run r true s with
    | (_, gs, _) :: _ => Some gs
    | [] => None
    end.
Proof.
  unfold Re.search. destruct s as [|c s]; cbn [Re.search_from Re.run flat_map];
    cbn [andb Re.is_empty]; rewrite app_nil_r;
    destruct (Re.run r true _) as [|[[t gs] rest] l]; cbn [map]; try reflexivity.
  apply search_anchored_later.
Qed.

(** On a line without a newline the search finds exactly the first marker. *)
Lemma search_line (line : string) :
  all Re.dot line = true ->
  Re.search line_pattern line
  = match split_marker line with
    | Some (raw, rest) => Some [raw; PyStr.lstrip rest]
    | None => None
    end.
Proof.
  intros Hall. unfold split_marker.
  change line_pattern with (Re.Seq Re.Bol (Re.Seq (Re.Lit "**") key_pattern)).
  rewrite search_anchored.
  cbn [Re.run]. destruct (PyStr.startswith "**" line) eqn:Es; [|reflexivity].
  cbn [flat_map String.length].
  pose proof (run_key (true && Re.is_empty "**") (PyStr.drop 2 line)
                      (all_drop _ 2 _ Hall)) as Hk.
  destruct (find _ (Re.lazy_plus Re.dot (PyStr.drop 2 line))) as [[raw r]|].
  - destruct Hk as [t [l ->]]. reflexivity.
  - rewrite Hk. reflexivity.
Qed.

(** The loop body in terms of the first marker of the stripped line. *)
Lemma parse_line_marker (d : dict) (line : string) :
  all Re.dot line = true ->
  parse_line d line
  = match split_marker (PyStr.strip line) with
    | Some (raw, rest) =>
        if is_ignored (PyStr.strip raw) then d
        else dict_set (PyStr.strip raw) (PyStr.strip rest) d
    | None => d
    end.
Proof.
  intros Hall. unfold parse_line.
  rewrite (search_line _ (strip_all _ _ Hall)).
  destruct (split_marker (PyStr.strip line)) as [[raw rest]|]; [|reflexivity].
  cbn [Re.group Nat.sub nth]. now rewrite strip_lstrip.
Qed.

End PatternFacts.

(** ** Facts about the mapping *)

Section DictFacts.

Context {V : Type}.

Lemma dict_get_set (k k' : string) (v : V) (d : dict_of V) :
  dict_get k (dict_set k' v d) = if String.eqb k k' then Some v else dict_get k d.
Proof.
  induction d as [|[k0 v0] d IH]; simpl.
  - reflexivity.
  - destruct (String.eqb k' k0) eqn:E; simpl.
    + apply String.eqb_eq in E. subst k0. now destruct (String.eqb k k').
    + rewrite IH. destruct (String.eqb k k0) eqn:E0; [|reflexivity].
      apply String.eqb_eq in E0. subst k0.
      destruct (String.eqb k k') eqn:E1; [|reflexivity].
      apply String.eqb_eq in E1. subst k'. rewrite String.eqb_refl in E. discriminate.
Qed.

Lemma dict_keys_set (k : string) (v : V) (d : dict_of V) :
  dict_keys (dict_set k v d)
  = if existsb (String.eqb k) (dict_keys d) then dict_keys d
    else (dict_keys d ++ [k])%list.
Proof.
  unfold dict_keys. induction d as [|[k0 v0] d IH]; simpl; [reflexivity|].
  destruct (String.eqb k k0) eqn:E; simpl.
  - apply String.eqb_eq in E. now subst k0.
  - rewrite IH. now destruct (existsb (String.eqb k) (map fst d)).
Qed.

Lemma dict_get_none (k : string) (d : dict_of V) :
  dict_get k d = None <-> ~ In k (dict_keys d).
Proof.
  unfold dict_keys. induction d as [|[k0 v0] d IH]; simpl.
  - split; [intros _ [] | reflexivity].
  - destruct (String.eqb k k0) eqn:E.
    + apply String.eqb_eq in E. subst k0. split; [discriminate|].
      intros H. exfalso. apply H. now left.
    + apply String.eqb_neq in E. rewrite IH. split.
      * intros H [H'|H']; [congruence | now apply H].
      * intros H H'. apply H. now right.
Qed.

End DictFacts.

Section OrderFacts.

Lemma existsb_eqb_in (x : string) (l : list string) :
  existsb (String.eqb x) l = true <-> In x l.
Proof.
  rewrite existsb_exists. split.
  - intros [y [Hy E]]. apply String.eqb_eq in E. now subst y.
  - intros H. exists x. split; [exact H | apply String.eqb_refl].
Qed.

Lemma in_first_occurrences (x : string) (l : list string) :
  In x (first_occurrences l) <-> In x l.
Proof.
  induction l as [|y l IH]; simpl; [reflexivity|].
  rewrite filter_In, IH, negb_true_iff, String.eqb_neq.
  destruct (string_dec y x) as [->|Hne]; [tauto|].
  split; [tauto|]. intros [H|H]; [congruence|]. right. split; [exact H|].
  intros ->. now apply Hne.
Qed.

Lemma existsb_first_occurrences (x : string) (l : list string) :
  existsb (String.eqb x) (first_occurrences l) = existsb (String.eqb x) l.
Proof.
  destruct (existsb (String.eqb x) l) eqn:E.
  - apply existsb_eqb_in. apply (proj2 (in_first_occurrences _ _)).
    now apply (proj1 (existsb_eqb_in _ _)).
  - destruct (existsb (String.eqb x) (first_occurrences l)) eqn:E'; [|reflexivity].
    apply (proj1 (existsb_eqb_in _ _)) in E'.
    apply (proj1 (in_first_occurrences _ _)) in E'.
    apply (proj2 (existsb_eqb_in x l)) in E'. congruence.
Qed.

Lemma first_occurrences_snoc (x : string) (l : list string) :
  first_occurrences (l ++ [x])
  = if existsb (String.eqb x) l then first_occurrences l
    else (first_occurrences l ++ [x])%list.
Proof.
  induction l as [|y l IH]; simpl; [reflexivity|].
  rewrite IH. destruct (existsb (String.eqb x) l).
  - now rewrite orb_true_r.
  - rewrite orb_false_r, filter_app. simpl.
    destruct (String.eqb x y); simpl; [now rewrite app_nil_r | reflexivity].
Qed.

Lemma first_occurrences_nodup (l : list string) : NoDup (first_occurrences l).
Proof.
  induction l as [|y l IH]; simpl; constructor.
  - rewrite filter_In, String.eqb_refl. simpl. intros [_ H]. discriminate.
  - now apply NoDup_filter.
Qed.

Lemma last_value_snoc (k k' v : string) (es : list (string * string)) :
  last_value k (es ++ [(k', v)])
  = if String.eqb k k' then Some v else last_value k es.
Proof.
  induction es as [|[k0 v0] es IH]; simpl.
  - reflexivity.
  - rewrite IH. destruct (String.eqb k k'); [reflexivity|].
    now destruct (last_value k es).
Qed.

Lemma fold_set_keys (es : list (string * string)) :
  dict_keys (fold_left set_entry es []) = first_occurrences (map fst es).
Proof.
  induction es as [|[k v] es IH] using rev_ind; [reflexivity|].
  rewrite fold_left_app, map_app. cbn [fold_left map fst].
  unfold set_entry at 1. cbn [fst snd].
  rewrite dict_keys_set, first_occurrences_snoc, IH.
  now rewrite existsb_first_occurrences.
Qed.

Lemma fold_set_get (k : string) (es : list (string * string)) :
  dict_get k (fold_left set_entry es []) = last_value k es.
Proof.
  induction es as [|[k' v] es IH] using rev_ind; [reflexivity|].
  rewrite fold_left_app. cbn [fold_left]. unfold set_entry at 1. cbn [fst snd].
  now rewrite dict_get_set, last_value_snoc, IH.
Qed.

Lemma last_value_in (k v : string) (es : list (string * string)) :
  last_value k es = Some v -> In (k, v) es.
Proof.
  induction es as [|[k0 v0] es IH]; simpl; [discriminate|].
  destruct (last_value k es) as [v'|].
  - intros H. injection H as ->. right. now apply IH.
  - destruct (String.eqb k k0) eqn:E; [|discriminate].
    apply String.eqb_eq in E. subst k0. intros H. injection H as ->. now left.
Qed.

End OrderFacts.

(** ** Facts about the extractor *)

Section ExtractFacts.

Lemma line_entry_marker (line : string) :
  all Re.dot line = true ->
  line_entry line
  = match split_marker (PyStr.strip line) with
    | Some (raw, rest) =>
        if is_ignored (PyStr.strip raw) then None
        else Some (PyStr.strip raw, PyStr.strip rest)
    | None => None
    end.
Proof.
  intros Hall. unfold line_entry. rewrite (parse_line_marker _ _ Hall).
  destruct (split_marker (PyStr.strip line)) as [[raw rest]|]; [|reflexivity].
  now destruct (is_ignored (PyStr.strip raw)).
Qed.

Lemma parse_line_entry (d : dict) (line : string) :
  all Re.dot line = true ->
  parse_line d line
  = match line_entry line with
    | Some kv => set_entry d kv
    | None => d
    end.
Proof.
  intros Hall. rewrite (line_entry_marker _ Hall), (parse_line_marker _ _ Hall).
  destruct (split_marker (PyStr.strip line)) as [[raw rest]|]; [|reflexivity].
  now destruct (is_ignored (PyStr.strip raw)).
Qed.

(** What a line contributes, in terms of its shape. *)
Lemma line_entry_spec (line k v : string) :
  all Re.dot line = true ->
  line_entry line = Some (k, v)
  <-> exists raw rest,
        annotated (PyStr.strip line) raw rest
        /\ k = PyStr.strip raw /\ v = PyStr.strip rest /\ is_ignored k = false.
Proof.
  intros Hall. rewrite (line_entry_marker _ Hall).
  pose proof (strip_all _ _ Hall) as Hs. split.
  - destruct (split_marker (PyStr.strip line)) as [[raw rest]|] eqn:E; [|discriminate].
    apply (split_marker_spec _ _ _ Hs) in E.
    destruct (is_ignored (PyStr.strip raw)) eqn:Ei; [discriminate|].
    intros H. injection H as <- <-. now exists raw, rest.
  - intros [raw [rest [Ha [-> [-> Hi]]]]].
    apply (split_marker_spec _ _ _ Hs) in Ha. now rewrite Ha, Hi.
Qed.

Lemma parse_lines_fold (lines : list string) (d : dict) :
  Forall (fun line => all Re.dot line = true) lines ->
  fold_left parse_line lines d
  = fold_left set_entry
      (flat_map (fun line => match line_entry line with
                             | Some kv => [kv]
                             | None => []
                             end) lines) d.
Proof.
  intros H. revert d. induction H as [|line lines Hl _ IH]; intros d; [reflexivity|].
  cbn [fold_left flat_map]. rewrite fold_left_app, IH, (parse_line_entry _ _ Hl).
  now destruct (line_entry line).
Qed.

Lemma parse_text_extracted (text : string) :
  parse_text_replacements text = fold_left set_entry (extracted text) [].
Proof.
  unfold parse_text_replacements, extracted. apply parse_lines_fold.
  apply Forall_forall. intros line. apply split_lines_dot.
Qed.

Lemma in_extracted (text : string) (kv : string * string) :
  In kv (extracted text)
  <-> exists line, In line (PyStr.split PyStr.newline text) /\ line_entry line = Some kv.
Proof.
  unfold extracted. rewrite in_flat_map. split.
  - intros [line [Hin H]]. exists line. split; [exact Hin|].
    destruct (line_entry line) as [kv'|]; [|destruct H].
    destruct H as [->|[]]. reflexivity.
  - intros [line [Hin H]]. exists line. split; [exact Hin|]. rewrite H. now left.
Qed.

Lemma is_ignored_in (k : string) : is_ignored k = true <-> In k ignored_keys.
Proof. apply existsb_eqb_in. Qed.

End ExtractFacts.

(** ** More on stripping: lines that carry the marker *)

Section MarkerLines.

Lemma rstrip_keeps_head (c : ascii) (s : string) :
  PyStr.is_space c = false -> PyStr.rstrip (String c s) = String c (PyStr.rstrip s).
Proof. intros H. simpl. rewrite H. now destruct (PyStr.rstrip s). Qed.

Lemma lstrip_rstrip (s : string) :
  PyStr.lstrip (PyStr.rstrip s) = PyStr.rstrip (PyStr.lstrip s).
Proof.
  induction s as [|c s IH]; [reflexivity|].
  destruct (PyStr.is_space c) eqn:E.
  - cbn [PyStr.lstrip PyStr.rstrip]. rewrite E, <- IH.
    destruct (PyStr.rstrip s) as [|y r]; [reflexivity|].
    cbn [PyStr.lstrip]. now rewrite E.
  - rewrite (lstrip_nonspace c s E), (rstrip_keeps_head c s E).
    now rewrite lstrip_nonspace.
Qed.

Lemma rstrip_idempotent (s : string) : PyStr.rstrip (PyStr.rstrip s) = PyStr.rstrip s.
Proof.
  induction s as [|c s IH]; [reflexivity|].
  cbn [PyStr.rstrip]. destruct (PyStr.rstrip s) as [|y r] eqn:Er.
  - destruct (PyStr.is_space c) eqn:E; [reflexivity|]. simpl. now rewrite E.
  - cbn [PyStr.rstrip] in *. now rewrite IH.
Qed.

Lemma strip_rstrip (s : string) : PyStr.strip (PyStr.rstrip s) = PyStr.strip s.
Proof. unfold PyStr.strip. now rewrite lstrip_rstrip, rstrip_idempotent. Qed.

Lemma strip_all_space (s : string) : all PyStr.is_space s = true -> PyStr.strip s = "".
Proof. intros H. unfold PyStr.strip. now rewrite (lstrip_all_space s H). Qed.

(** Stripping a line that opens with the asterisks and carries the marker
    only trims what follows the marker. *)
Lemma strip_marker_line (raw rest : string) :
  PyStr.strip ("**" ++ raw ++ ":**" ++ rest) = "**" ++ raw ++ ":**" ++ PyStr.rstrip rest.
Proof.
  unfold PyStr.strip. change ("**" ++ raw ++ ":**" ++ rest)
    with (String "*" ("*" ++ raw ++ ":**" ++ rest)).
  rewrite lstrip_nonspace by reflexivity.
  change (String "*" ("*" ++ raw ++ ":**" ++ rest)) with ("**" ++ raw ++ ":**" ++ rest).
  assert (Hhead : PyStr.rstrip (("**" ++ raw) ++ ":**") = ("**" ++ raw) ++ ":**").
  { rewrite rstrip_append. reflexivity. }
  replace ("**" ++ raw ++ ":**" ++ rest) with ((("**" ++ raw) ++ ":**") ++ rest)
    by now rewrite !append_assoc.
  rewrite rstrip_append, Hhead.
  destruct (PyStr.rstrip rest); rewrite ?append_empty_r, !append_assoc; reflexivity.
Qed.

(** A key text made of spaces only cannot hide an earlier marker. *)
Lemma annotated_blank (ws rest : string) :
  ws <> "" -> all PyStr.is_space ws = true ->
  annotated ("**" ++ ws ++ ":**" ++ rest) ws rest.
Proof.
  intros Hne Hws. repeat split; [exact Hne|].
  intros raw' rest' Hraw' Heq. apply (append_inv_head "**") in Heq.
  destruct (Nat.le_gt_cases (String.length ws) (String.length raw')) as [Hle|Hlt];
    [exact Hle|].
  destruct (append_split ws (":**" ++ rest) raw' (":**" ++ rest') Heq ltac:(lia))
    as [m [Hws' Hm]].
  destruct m as [|c m].
  - rewrite append_empty_r in Hws'. subst raw'. lia.
  - simpl in Hm. injection Hm as <- _. subst ws.
    rewrite all_append in Hws. apply andb_true_iff in Hws as [_ Hws].
    simpl in Hws. discriminate.
Qed.

End MarkerLines.

(** ** The renderer *)

(** C1. For every mapping and template body the renderer goes through the
    entries in insertion order; an entry whose key occurs in the current,
    already substituted body has every occurrence replaced by its value
    and adds exactly one to the counter, the others change nothing: the
    code's result is the one and only outcome the description allows, the
    counter never exceeds the number of entries, and mapping NAME -> Alice
    on "Hi NAME, NAME!" gives "Hi Alice, Alice!" with counter 1. *)
Theorem render_applies_entries_in_order :
  forall (m : dict) (body : string),
    (forall out, applies m (body, 0) out <-> out = render m body)
    /\ snd (render m body) <= List.length m
    /\ (forall request user,
          generated_html (generate_html request user)
          = fst (render (parse_text_replacements (input_text request))
                        (template_content request))
          /\ replacements_count (generate_html request user)
             = snd (render (parse_text_replacements (input_text request))
                           (template_content request)))
    /\ render [("NAME", "Alice")] "Hi NAME, NAME!" = ("Hi Alice, Alice!", 1)
    /\ generate_html {| template_content := "Hi NAME, NAME!";
                        input_text := "**NAME:** Alice" |} "admin"
       = {| generated_html := "Hi Alice, Alice!"; replacements_count := 1 |}.
Proof.
  intros m body. split; [|split; [|split; [|split]]].
  - intros out. split.
    + apply applies_unique.
    + intros ->. apply applies_fold.
  - apply (render_count_bound m body 0).
  - intros request user. unfold generate_html.
    now destruct (render _ _) as [html count].
  - reflexivity.
  - reflexivity.
Qed.

(** C4. Substitution is sequential over the mutated body: rendering a
    mapping in two parts is rendering the second part on the output of the
    first; when the first key occurs in the body and the second key occurs
    in the first value, the second substitution applies to the substituted
    body and both keys are counted; entries A -> B then B -> C on template
    "A" give "C". *)
Theorem render_substitutions_chain :
  forall (m1 m2 : dict) (k1 v1 k2 v2 body : string),
    render (m1 ++ m2)%list body
    = (fst (render m2 (fst (render m1 body))),
       snd (render m1 body) + snd (render m2 (fst (render m1 body))))
    /\ (occurs k1 body -> occurs k2 v1 ->
        occurs k2 (PyStr.replace k1 v1 body)
        /\ render [(k1, v1); (k2, v2)] body
           = (PyStr.replace k2 v2 (PyStr.replace k1 v1 body), 2))
    /\ render [("A", "B"); ("B", "C")] "A" = ("C", 2)
    /\ generate_html
         {| template_content := "X";
            input_text := "**X:** Y" ++ String PyStr.newline "**Y:** Z" |}
         "admin"
       = {| generated_html := "Z"; replacements_count := 2 |}.
Proof.
  intros m1 m2 k1 v1 k2 v2 body. split; [|split; [|split]].
  - apply render_append.
  - intros H1 H2.
    assert (H3 : occurs k2 (PyStr.replace k1 v1 body)).
    { apply (occurs_trans k2 v1); [exact H2 | now apply replace_leaves_new]. }
    split; [exact H3|].
    unfold render. cbn [fold_left].
    rewrite (render_step_hit k1 v1 body 0 H1).
    now rewrite (render_step_hit k2 v2 _ 1 H3).
  - reflexivity.
  - reflexivity.
Qed.

(** The mapping A -> B, B -> C itself cannot come out of the extractor,
    because A is in the exclusion set: through the whole generation
    operation the annotated text leaves the template "A" as it is. *)
Remark generate_drops_excluded_chain_head :
  generate_html
    {| template_content := "A";
       input_text := "**A:** B" ++ String PyStr.newline "**B:** C" |}
    "admin"
  = {| generated_html := "A"; replacements_count := 0 |}.
Proof. reflexivity. Qed.

Lemma render_substitutions_chain_witness :
  occurs "A" "A" /\ occurs "B" "B"
  /\ render [("A", "B"); ("B", "C")] "A"
     = (PyStr.replace "B" "C" (PyStr.replace "A" "B" "A"), 2).
Proof.
  assert (H1 : occurs "A" "A") by now exists "", "".
  assert (H2 : occurs "B" "B") by now exists "", "".
  split; [exact H1 | split; [exact H2|]].
  exact (proj2 (proj1 (proj2 (render_substitutions_chain [] [] "A" "B" "B" "C" "A"))
                      H1 H2)).
Defined.

(** ** The extractor *)

Section ExtractorShape.

Lemma parse_line_annotated (d : dict) (line raw rest : string) :
  all Re.dot line = true ->
  annotated (PyStr.strip line) raw rest ->
  parse_line d line
  = if is_ignored (PyStr.strip raw) then d
    else dict_set (PyStr.strip raw) (PyStr.strip rest) d.
Proof.
  intros Hall Ha. rewrite (parse_line_marker _ _ Hall).
  apply (split_marker_spec _ _ _ (strip_all _ _ Hall)) in Ha. now rewrite Ha.
Qed.

Lemma parse_line_unmarked (d : dict) (line : string) :
  all Re.dot line = true ->
  (forall raw rest, ~ annotated (PyStr.strip line) raw rest) ->
  parse_line d line = d.
Proof.
  intros Hall Hno. rewrite (parse_line_marker _ _ Hall).
  destruct (split_marker (PyStr.strip line)) as [[raw rest]|] eqn:E; [|reflexivity].
  apply (split_marker_spec _ _ _ (strip_all _ _ Hall)) in E. now destruct (Hno raw rest).
Qed.

Lemma parsed_key_origin (text k : string) :
  In k (dict_keys (parse_text_replacements text))
  <-> exists line raw rest,
        In line (PyStr.split PyStr.newline text)
        /\ annotated (PyStr.strip line) raw rest
        /\ k = PyStr.strip raw /\ is_ignored k = false.
Proof.
  rewrite parse_text_extracted, fold_set_keys, in_first_occurrences, in_map_iff.
  split.
  - intros [[k' v] [Hk Hin]]. simpl in Hk. subst k'.
    apply in_extracted in Hin as [line [Hl He]].
    apply (line_entry_spec _ _ _ (split_lines_dot _ _ Hl)) in He
      as [raw [rest [Ha [Hk [_ Hi]]]]].
    now exists line, raw, rest.
  - intros [line [raw [rest [Hl [Ha [Hk Hi]]]]]].
    exists (k, PyStr.strip rest). split; [reflexivity|].
    apply in_extracted. exists line. split; [exact Hl|].
    apply (line_entry_spec _ _ _ (split_lines_dot _ _ Hl)). now exists raw, rest.
Qed.

Lemma parsed_value_origin (text k v : string) :
  dict_get k (parse_text_replacements text) = Some v ->
  exists line raw rest,
    In line (PyStr.split PyStr.newline text)
    /\ annotated (PyStr.strip line) raw rest
    /\ k = PyStr.strip raw /\ v = PyStr.strip rest /\ is_ignored k = false.
Proof.
  rewrite parse_text_extracted, fold_set_get. intros H.
  apply last_value_in, in_extracted in H as [line [Hl He]].
  apply (line_entry_spec _ _ _ (split_lines_dot _ _ Hl)) in He
    as [raw [rest [Ha [Hk [Hv Hi]]]]].
  now exists line, raw, rest.
Qed.

End ExtractorShape.

(** C2, as the code has it. The text is split at newlines and every line
    stripped. A stripped line that reads [**raw:**rest], with [raw] not
    empty and the marker the first one after at least one character, sets
    the key [raw] trimmed to the value [rest] trimmed, unless that key is
    in the exclusion set; a line of any other shape leaves the mapping as
    it is; every key and value of the result comes from such a line; an
    empty [rest] gives the empty string as value. *)
Theorem extraction_reads_marked_lines :
  forall text : string,
    parse_text_replacements text
    = fold_left parse_line (PyStr.split PyStr.newline text) []
    /\ (forall line d,
          In line (PyStr.split PyStr.newline text) ->
          (forall raw rest,
              annotated (PyStr.strip line) raw rest ->
              parse_line d line
              = if is_ignored (PyStr.strip raw) then d
                else dict_set (PyStr.strip raw) (PyStr.strip rest) d)
          /\ (forall raw,
                 annotated (PyStr.strip line) raw "" ->
                 is_ignored (PyStr.strip raw) = false ->
                 parse_line d line = dict_set (PyStr.strip raw) "" d)
          /\ ((forall raw rest, ~ annotated (PyStr.strip line) raw rest) ->
              parse_line d line = d))
    /\ (forall k,
          In k (dict_keys (parse_text_replacements text))
          <-> exists line raw rest,
                In line (PyStr.split PyStr.newline text)
                /\ annotated (PyStr.strip line) raw rest
                /\ k = PyStr.strip raw /\ is_ignored k = false)
    /\ (forall k v,
          dict_get k (parse_text_replacements text) = Some v ->
          exists line raw rest,
            In line (PyStr.split PyStr.newline text)
            /\ annotated (PyStr.strip line) raw rest
            /\ k = PyStr.strip raw /\ v = PyStr.strip rest
            /\ is_ignored k = false)
    /\ parse_text_replacements "**Title:**" = [("Title", "")]
    /\ parse_text_replacements "no marker here" = [].
Proof.
  intros text. split; [reflexivity|]. split; [|split; [|split; [|split]]].
  - intros line d Hl. pose proof (split_lines_dot _ _ Hl) as Hall.
    split; [|split].
    + intros raw rest. now apply parse_line_annotated.
    + intros raw Ha Hi. rewrite (parse_line_annotated d line raw "" Hall Ha), Hi.
      reflexivity.
    + now apply parse_line_unmarked.
  - intros k. apply parsed_key_origin.
  - intros k v. apply parsed_value_origin.
  - reflexivity.
  - reflexivity.
Qed.

Lemma extraction_reads_marked_lines_witness :
  annotated (PyStr.strip "  **Title:** Hello World ") "Title" " Hello World"
  /\ parse_line [] "  **Title:** Hello World " = [("Title", "Hello World")].
Proof.
  assert (Ha : annotated (PyStr.strip "  **Title:** Hello World ")
                         "Title" " Hello World")
    by (apply split_marker_spec; reflexivity).
  split; [exact Ha|].
  destruct (extraction_reads_marked_lines "  **Title:** Hello World ")
    as [_ [Hline _]].
  destruct (Hline "  **Title:** Hello World " [] (or_introl eq_refl)) as [Hset _].
  exact (Hset "Title" " Hello World" Ha).
Defined.

(** C2, as stated, fails: in the line "** Title :** x" the text between
    the opening asterisks and the marker is " Title ", yet the entry is
    made under the trimmed key "Title"; the line "**DIV:** x" has the
    stated form but makes no entry; and neither does "**:** x", which has
    the stated form with nothing between the asterisks and the marker. *)
Lemma extraction_key_is_trimmed :
  parse_text_replacements "** Title :** x" = [("Title", "x")]
  /\ annotated (PyStr.strip "** Title :** x") " Title " " x"
  /\ dict_get " Title " (parse_text_replacements "** Title :** x") = None
  /\ annotated (PyStr.strip "**DIV:** x") "DIV" " x"
  /\ parse_text_replacements "**DIV:** x" = []
  /\ PyStr.strip "**:** x" = "**" ++ "" ++ ":**" ++ " x"
  /\ parse_text_replacements "**:** x" = [].
Proof.
  split; [reflexivity|].
  split; [|split; [reflexivity|split; [|repeat split]]].
  - apply split_marker_spec; reflexivity.
  - apply split_marker_spec; reflexivity.
Qed.

(** C3. A line whose extracted key is in the exclusion set (SPAN, DIV, P,
    H1 to H6, A, IMG, UL, LI, SECTION, HEADER, FOOTER, BODY, HTML, SCRIPT,
    STYLE, BR, HR; exact, case-sensitive match) contributes no entry, so no
    such key is ever in the mapping; a key outside the set is kept. The
    line "**Title:** Hello World" gives Title -> "Hello World", the line
    "**DIV:** ignored" gives nothing. *)
Theorem excluded_keys_make_no_entry :
  forall text : string,
    (forall k,
        is_ignored k = true
        <-> In k [ "SPAN"; "DIV"; "P"; "H1"; "H2"; "H3"; "H4"; "H5"; "H6"; "A";
                   "IMG"; "UL"; "LI"; "SECTION"; "HEADER"; "FOOTER"; "BODY";
                   "HTML"; "SCRIPT"; "STYLE"; "BR"; "HR" ])
    /\ (forall k,
          In k ignored_keys ->
          ~ In k (dict_keys (parse_text_replacements text))
          /\ dict_get k (parse_text_replacements text) = None)
    /\ (forall line raw rest d,
          In line (PyStr.split PyStr.newline text) ->
          annotated (PyStr.strip line) raw rest ->
          In (PyStr.strip raw) ignored_keys ->
          parse_line d line = d)
    /\ (forall line raw rest d,
          In line (PyStr.split PyStr.newline text) ->
          annotated (PyStr.strip line) raw rest ->
          ~ In (PyStr.strip raw) ignored_keys ->
          parse_line d line = dict_set (PyStr.strip raw) (PyStr.strip rest) d
          /\ In (PyStr.strip raw) (dict_keys (parse_text_replacements text)))
    /\ parse_text_replacements "**Title:** Hello World" = [("Title", "Hello World")]
    /\ parse_text_replacements "**DIV:** ignored" = []
    /\ parse_text_replacements "**div:** kept" = [("div", "kept")].
Proof.
  intros text. split; [|split; [|split; [|split; [|repeat split]]]].
  - intros k. apply is_ignored_in.
  - intros k Hk.
    assert (Hno : ~ In k (dict_keys (parse_text_replacements text))).
    { intros Hin. apply parsed_key_origin in Hin as [line [raw [rest [_ [_ [_ Hi]]]]]].
      apply is_ignored_in in Hk. congruence. }
    split; [exact Hno | now apply dict_get_none].
  - intros line raw rest d Hl Ha Hi. apply is_ignored_in in Hi.
    rewrite (parse_line_annotated d line raw rest (split_lines_dot _ _ Hl) Ha).
    now rewrite Hi.
  - intros line raw rest d Hl Ha Hi.
    assert (Hf : is_ignored (PyStr.strip raw) = false).
    { destruct (is_ignored (PyStr.strip raw)) eqn:E; [|reflexivity].
      apply is_ignored_in in E. now destruct (Hi E). }
    split.
    + rewrite (parse_line_annotated d line raw rest (split_lines_dot _ _ Hl) Ha).
      now rewrite Hf.
    + apply parsed_key_origin. now exists line, raw, rest.
Qed.

Lemma excluded_keys_make_no_entry_witness :
  In "DIV" ignored_keys
  /\ annotated (PyStr.strip "**DIV:** ignored") "DIV" " ignored"
  /\ parse_line [("k", "v")] "**DIV:** ignored" = [("k", "v")].
Proof.
  assert (Hi : In "DIV" ignored_keys) by (apply is_ignored_in; reflexivity).
  assert (Ha : annotated (PyStr.strip "**DIV:** ignored") "DIV" " ignored")
    by (apply split_marker_spec; reflexivity).
  split; [exact Hi | split; [exact Ha|]].
  destruct (excluded_keys_make_no_entry "**DIV:** ignored") as [_ [_ [Hdrop _]]].
  exact (Hdrop "**DIV:** ignored" "DIV" " ignored" [("k", "v")]
               (or_introl eq_refl) Ha Hi).
Defined.

(** C5. The keys of the extracted mapping stand in the order of their
    first occurrence among the entries the lines yield, each key once, and
    a key's value is that of the last line that yields it: setting a key
    that is present overwrites its value where it stands, setting a new
    key appends it. *)
Theorem extraction_keeps_first_position_last_value :
  forall text : string,
    dict_keys (parse_text_replacements text)
    = first_occurrences (map fst (extracted text))
    /\ (forall k,
          dict_get k (parse_text_replacements text) = last_value k (extracted text))
    /\ NoDup (dict_keys (parse_text_replacements text))
    /\ (forall kv,
          In kv (extracted text)
          <-> exists line,
                In line (PyStr.split PyStr.newline text)
                /\ line_entry line = Some kv)
    /\ (forall (d : dict) k v,
          dict_get k (dict_set k v d) = Some v
          /\ dict_keys (dict_set k v d)
             = if existsb (String.eqb k) (dict_keys d) then dict_keys d
               else (dict_keys d ++ [k])%list)
    /\ parse_text_replacements
         ("**a:** 1" ++ String PyStr.newline "**b:** 2"
                     ++ String PyStr.newline "**a:** 3")
       = [("a", "3"); ("b", "2")].
Proof.
  intros text. split; [|split; [|split; [|split; [|split]]]].
  - rewrite parse_text_extracted. apply fold_set_keys.
  - intros k. rewrite parse_text_extracted. apply fold_set_get.
  - rewrite parse_text_extracted, fold_set_keys. apply first_occurrences_nodup.
  - intros kv. apply in_extracted.
  - intros d k v. split.
    + now rewrite dict_get_set, String.eqb_refl.
    + apply dict_keys_set.
  - reflexivity.
Qed.

(** C10. A line whose key text is not empty but holds spaces only (as in
    "** :** v") puts the empty string into the mapping as a key; rendered,
    the empty key is found in every body, the empty one included, it is
    counted once, and its value is put between every two adjacent
    characters of the body and at both ends. *)
Theorem blank_key_is_inserted_everywhere :
  forall ws rest body user : string,
    ws <> "" ->
    all PyStr.is_space ws = true ->
    all Re.dot ws = true ->
    all Re.dot rest = true ->
    parse_text_replacements ("**" ++ ws ++ ":**" ++ rest) = [("", PyStr.strip rest)]
    /\ (forall text line after,
          In line (PyStr.split PyStr.newline text) ->
          PyStr.strip line = "**" ++ ws ++ ":**" ++ after ->
          In "" (dict_keys (parse_text_replacements text)))
    /\ PyStr.contains "" body = true
    /\ render [("", PyStr.strip rest)] body
       = (inserted_everywhere (PyStr.strip rest) body, 1)
    /\ render [("", PyStr.strip rest)] "" = (PyStr.strip rest, 1)
    /\ generate_html {| template_content := body;
                        input_text := "**" ++ ws ++ ":**" ++ rest |} user
       = {| generated_html := inserted_everywhere (PyStr.strip rest) body;
            replacements_count := 1 |}.
Proof.
  intros ws rest body user Hne Hws Hdw Hdr.
  assert (Hline : all Re.dot ("**" ++ ws ++ ":**" ++ rest) = true).
  { change ("**" ++ ws ++ ":**" ++ rest) with (String "*" (String "*" (ws ++ ":**" ++ rest))).
    cbn [all]. rewrite all_append, Hdw.
    change (":**" ++ rest) with (String ":" (String "*" (String "*" rest))).
    cbn [all]. now rewrite Hdr. }
  assert (Hparse : parse_text_replacements ("**" ++ ws ++ ":**" ++ rest)
                   = [("", PyStr.strip rest)]).
  { unfold parse_text_replacements. rewrite (split_single _ Hline). cbn [fold_left].
    rewrite (parse_line_annotated [] _ ws (PyStr.rstrip rest) Hline).
    - rewrite (strip_all_space ws Hws), strip_rstrip. reflexivity.
    - rewrite strip_marker_line. now apply annotated_blank. }
  assert (Hrender : forall b, render [("", PyStr.strip rest)] b
                              = (inserted_everywhere (PyStr.strip rest) b, 1)).
  { intros b. unfold render. cbn [fold_left].
    rewrite (render_step_hit "" _ b 0 (occurs_empty b)).
    cbn [PyStr.replace]. now rewrite interleave_inserted. }
  split; [exact Hparse|]. split; [|split; [|split; [|split]]].
  - intros text line after Hl Hs. apply parsed_key_origin.
    exists line, ws, after. split; [exact Hl|]. split.
    + rewrite Hs. now apply annotated_blank.
    + now rewrite (strip_all_space ws Hws).
  - apply contains_spec, occurs_empty.
  - apply Hrender.
  - rewrite Hrender. unfold inserted_everywhere. simpl. now rewrite append_empty_r.
  - unfold generate_html. cbn [template_content input_text].
    now rewrite Hparse, Hrender.
Qed.

Lemma blank_key_is_inserted_everywhere_witness :
  parse_text_replacements "** :** v" = [("", "v")]
  /\ (forall text line after,
        In line (PyStr.split PyStr.newline text) ->
        PyStr.strip line = "**" ++ " " ++ ":**" ++ after ->
        In "" (dict_keys (parse_text_replacements text)))
  /\ PyStr.contains "" "ab" = true
  /\ render [("", "v")] "ab" = ("vavbv", 1)
  /\ render [("", "v")] "" = ("v", 1)
  /\ generate_html {| template_content := "ab"; input_text := "** :** v" |} "admin"
     = {| generated_html := "vavbv"; replacements_count := 1 |}.
Proof.
  apply (blank_key_is_inserted_everywhere " " " v" "ab" "admin");
    [discriminate | reflexivity | reflexivity | reflexivity].
Defined.

(** ** The token guard and the credential validator *)

Lemma claim_eqb_eq (a b : claim_value) : claim_eqb a b = true <-> a = b.
Proof.
  destruct a as [s|t], b as [s'|t']; simpl.
  - rewrite String.eqb_eq. split; [now intros -> | now intros [= ->]].
  - split; discriminate.
  - split; discriminate.
  - rewrite Z.eqb_eq. split; [now intros -> | now intros [= ->]].
Qed.

(** The symbolic library keeps the contract the guard relies on. *)
Lemma sym_decode_encode (utcnow : Z) (sub key : string) (e : Z) :
  sym_decode utcnow (sym_encode [("sub", CStr sub); ("exp", CTime e)] key) key
  = if (e <? utcnow)%Z then inl ExpiredSignature
    else inr [("sub", CStr sub); ("exp", CTime e)].
Proof.
  unfold sym_decode, sym_encode. now rewrite String.eqb_refl.
Qed.

Section AuthFacts.

Variable token : Type.
Variables SECRET_KEY ADMIN_USERNAME_ENV ADMIN_PASSWORD_ENV : string.
Variable jwt_encode : payload -> string -> token.
Variable jwt_decode : Z -> token -> string -> JWTError + payload.

(** What the program expects of the token library, for the tokens it
    issues itself: a token made by [jwt.encode] from a subject and an
    expiry, and nothing else, decodes under the same key to those claims
    as long as the expiry has not passed, and raises
    [ExpiredSignatureError] once it has. *)
Hypothesis decode_encode :
  forall (utcnow : Z) (sub key : string) (e : Z),
    jwt_decode utcnow (jwt_encode [("sub", CStr sub); ("exp", CTime e)] key) key
    = if (e <? utcnow)%Z then inl ExpiredSignature
      else inr [("sub", CStr sub); ("exp", CTime e)].

Let guard := get_current_user token SECRET_KEY ADMIN_USERNAME_ENV jwt_decode.
Let issue := create_access_token token SECRET_KEY jwt_encode.
Let login :=
  login_for_access_token token SECRET_KEY ADMIN_USERNAME_ENV ADMIN_PASSWORD_ENV jwt_encode.

Lemma guard_of_issued (utcnow issued delta : Z) (sub : string) :
  delta <> 0%Z ->
  guard utcnow (issue issued [("sub", CStr sub)] (Some delta))
  = if (issued + delta <? utcnow)%Z then inl credentials_exception
    else if String.eqb sub ADMIN_USERNAME_ENV then inr (CStr sub)
         else inl credentials_exception.
Proof.
  intros Hd. unfold guard, issue, get_current_user, create_access_token.
  apply Z.eqb_neq in Hd. rewrite Hd.
  change (dict_set "exp" (CTime (issued + delta)) [("sub", CStr sub)])
    with [("sub", CStr sub); ("exp", CTime (issued + delta))].
  rewrite (decode_encode utcnow sub SECRET_KEY (issued + delta)).
  destruct (issued + delta <? utcnow)%Z; [reflexivity|].
  cbn [dict_get String.eqb Ascii.eqb Bool.eqb andb claim_eqb].
  now destruct (String.eqb sub ADMIN_USERNAME_ENV).
Qed.

(** C6, as the code has it. The guard fails, always with the one
    Unauthorized exception, exactly when decoding raises a [JWTError] of
    any kind (a signature that does not verify, a malformed token, an
    expired token, or any other claim the library refuses, such as a
    not-before time in the future), the subject is absent, or the subject
    is not the configured administrator; when it succeeds it returns the
    subject. A token issued for the administrator is accepted until its
    expiry and rejected after it; a token issued for any other subject is
    rejected at all times. *)
Theorem guard_rejects_on_any_decode_error :
  forall (utcnow : Z) (tok : token),
    (guard utcnow tok = inl credentials_exception
     <-> ((exists err, jwt_decode utcnow tok SECRET_KEY = inl err)
          \/ (exists p, jwt_decode utcnow tok SECRET_KEY = inr p
                        /\ dict_get "sub" p = None)
          \/ (exists p sub, jwt_decode utcnow tok SECRET_KEY = inr p
                            /\ dict_get "sub" p = Some sub
                            /\ sub <> CStr ADMIN_USERNAME_ENV)))
    /\ (forall err,
          jwt_decode utcnow tok SECRET_KEY = inl err ->
          (err = InvalidSignature \/ err = Malformed
           \/ err = ExpiredSignature \/ err = JWTClaimsError)
          /\ guard utcnow tok = inl credentials_exception)
    /\ (forall e, guard utcnow tok = inl e ->
                  e = credentials_exception /\ status_code e = 401)
    /\ (forall user, guard utcnow tok = inr user ->
                     user = CStr ADMIN_USERNAME_ENV
                     /\ exists p, jwt_decode utcnow tok SECRET_KEY = inr p
                                  /\ dict_get "sub" p = Some user)
    /\ (forall issued delta : Z,
          delta <> 0%Z ->
          ((utcnow <= issued + delta)%Z ->
           guard utcnow (issue issued [("sub", CStr ADMIN_USERNAME_ENV)] (Some delta))
           = inr (CStr ADMIN_USERNAME_ENV))
          /\ ((issued + delta < utcnow)%Z ->
              guard utcnow (issue issued [("sub", CStr ADMIN_USERNAME_ENV)] (Some delta))
              = inl credentials_exception)
          /\ (forall sub, sub <> ADMIN_USERNAME_ENV ->
                guard utcnow (issue issued [("sub", CStr sub)] (Some delta))
                = inl credentials_exception))
    /\ (forall (issued : Z) (granted : Token token),
          login issued ADMIN_USERNAME_ENV ADMIN_PASSWORD_ENV = inr granted ->
          ((utcnow <= issued + 86400)%Z ->
           guard utcnow (access_token granted) = inr (CStr ADMIN_USERNAME_ENV))
          /\ ((issued + 86400 < utcnow)%Z ->
              guard utcnow (access_token granted) = inl credentials_exception)).
Proof.
  intros utcnow tok.
  assert (Hcases :
            guard utcnow tok
            = match jwt_decode utcnow tok SECRET_KEY with
              | inl _ => inl credentials_exception
              | inr p =>
                  match dict_get "sub" p with
                  | None => inl credentials_exception
                  | Some sub =>
                      if claim_eqb sub (CStr ADMIN_USERNAME_ENV) then inr sub
                      else inl credentials_exception
                  end
              end).
  { unfold guard, get_current_user.
    destruct (jwt_decode utcnow tok SECRET_KEY) as [e|p]; [reflexivity|].
    destruct (dict_get "sub" p) as [sub|]; [|reflexivity].
    now destruct (claim_eqb sub (CStr ADMIN_USERNAME_ENV)). }
  split; [|split; [|split; [|split; [|split]]]].
  - rewrite Hcases. split.
    + destruct (jwt_decode utcnow tok SECRET_KEY) as [err|p].
      * intros _. left. now exists err.
      * destruct (dict_get "sub" p) as [sub|] eqn:Es.
        -- destruct (claim_eqb sub (CStr ADMIN_USERNAME_ENV)) eqn:Ec; [discriminate|].
           intros _. right. right. exists p, sub.
           repeat split; try assumption.
           intros Heq. apply claim_eqb_eq in Heq. congruence.
        -- intros _. right. left. now exists p.
    + intros [[err H]|[[p [H Hs]]|[p [sub [H [Hs Hne]]]]]]; rewrite H;
        try reflexivity.
      * now rewrite Hs.
      * rewrite Hs. destruct (claim_eqb sub (CStr ADMIN_USERNAME_ENV)) eqn:Ec;
          [|reflexivity].
        apply claim_eqb_eq in Ec. contradiction.
  - intros err H. split.
    + destruct err; tauto.
    + rewrite Hcases. now rewrite H.
  - rewrite Hcases. intros e.
    destruct (jwt_decode utcnow tok SECRET_KEY) as [err|p].
    + intros [= <-]. now split.
    + destruct (dict_get "sub" p) as [sub|].
      * destruct (claim_eqb sub (CStr ADMIN_USERNAME_ENV)); [discriminate|].
        intros [= <-]. now split.
      * intros [= <-]. now split.
  - rewrite Hcases. intros user.
    destruct (jwt_decode utcnow tok SECRET_KEY) as [err|p]; [discriminate|].
    destruct (dict_get "sub" p) as [sub|] eqn:Es; [|discriminate].
    destruct (claim_eqb sub (CStr ADMIN_USERNAME_ENV)) eqn:Ec; [|discriminate].
    intros [= <-]. apply claim_eqb_eq in Ec. split; [exact Ec|].
    exists p. now split.
  - intros issued delta Hd. split; [|split].
    + intros Hle. rewrite (guard_of_issued _ _ _ _ Hd).
      apply Z.ltb_ge in Hle. now rewrite Hle, String.eqb_refl.
    + intros Hlt. rewrite (guard_of_issued _ _ _ _ Hd).
      apply Z.ltb_lt in Hlt. now rewrite Hlt.
    + intros sub Hne. rewrite (guard_of_issued _ _ _ _ Hd).
      apply String.eqb_neq in Hne. rewrite Hne.
      now destruct (issued + delta <? utcnow)%Z.
  - intros issued granted. unfold login, login_for_access_token.
    rewrite !String.eqb_refl. cbn [negb orb]. intros [= <-].
    cbn [access_token].
    change (timedelta_minutes ACCESS_TOKEN_EXPIRE_MINUTES) with 86400%Z.
    fold issue. rewrite (guard_of_issued utcnow issued 86400) by discriminate.
    split.
    + intros Hle. apply Z.ltb_ge in Hle. now rewrite Hle, String.eqb_refl.
    + intros Hlt. apply Z.ltb_lt in Hlt. now rewrite Hlt.
Qed.

(** C7. The validator succeeds exactly when the submitted identity and
    secret both equal the configured ones; it then issues a bearer token
    whose subject is the submitted identity and whose expiry is the current
    time plus 24 hours (86400 seconds); on any mismatch, of the identity,
    of the secret or of both, it fails with one and the same Unauthorized
    exception. *)
Theorem login_checks_the_configured_pair :
  forall (utcnow : Z) (username password : string),
    ((exists granted, login utcnow username password = inr granted)
     <-> username = ADMIN_USERNAME_ENV /\ password = ADMIN_PASSWORD_ENV)
    /\ (username = ADMIN_USERNAME_ENV -> password = ADMIN_PASSWORD_ENV ->
        login utcnow username password
        = inr {| access_token :=
                   jwt_encode [("sub", CStr username);
                               ("exp", CTime (utcnow + 24 * 60 * 60))]
                              SECRET_KEY;
                 token_type := "bearer" |})
    /\ (username <> ADMIN_USERNAME_ENV ->
        login utcnow username password = inl incorrect_login)
    /\ (password <> ADMIN_PASSWORD_ENV ->
        login utcnow username password = inl incorrect_login)
    /\ status_code incorrect_login = 401.
Proof.
  intros utcnow username password. unfold login, login_for_access_token.
  split; [|split; [|split; [|split]]].
  - destruct (String.eqb_spec username ADMIN_USERNAME_ENV) as [Hu|Hu];
      destruct (String.eqb_spec password ADMIN_PASSWORD_ENV) as [Hp|Hp];
      cbn [negb orb]; split;
      try (intros [granted H]; discriminate);
      try (intros [? ?]; contradiction).
    + intros _. now split.
    + intros _. eexists. reflexivity.
  - intros -> ->. rewrite !String.eqb_refl. reflexivity.
  - intros Hne. apply String.eqb_neq in Hne. now rewrite Hne.
  - intros Hne. apply String.eqb_neq in Hne. rewrite Hne. cbn [negb].
    now rewrite orb_true_r.
  - reflexivity.
Qed.

End AuthFacts.

Lemma guard_rejects_on_any_decode_error_witness :
  get_current_user sym_token "k" "admin" sym_decode 100
    (create_access_token sym_token "k" sym_encode 0
       [("sub", CStr "admin")] (Some 86400%Z))
  = inr (CStr "admin")
  /\ get_current_user sym_token "k" "admin" sym_decode 86401
       (create_access_token sym_token "k" sym_encode 0
          [("sub", CStr "admin")] (Some 86400%Z))
     = inl credentials_exception.
Proof.
  pose proof (guard_rejects_on_any_decode_error
                sym_token "k" "admin" "password123" sym_encode sym_decode
                sym_decode_encode) as H.
  split.
  - destruct (H 100%Z None) as [_ [_ [_ [_ [Hissued _]]]]].
    destruct (Hissued 0%Z 86400%Z ltac:(discriminate)) as [Hlive _].
    apply Hlive. apply Z.leb_le. reflexivity.
  - destruct (H 86401%Z None) as [_ [_ [_ [_ [Hissued _]]]]].
    destruct (Hissued 0%Z 86400%Z ltac:(discriminate)) as [_ [Hdead _]].
    apply Hdead. apply Z.ltb_lt. reflexivity.
Defined.

(** C6, as stated, fails. The token below is signed with the configured
    key, is well formed, has not expired at time 100 (its expiry is 200)
    and names the administrator as its subject, so none of the five stated
    reasons holds; but its not-before time, 150, lies in the future, the
    library raises [JWTClaimsError], the handler of [JWTError] catches it
    and the guard answers Unauthorized. *)
Lemma guard_rejects_token_not_yet_valid :
  dict_get "sub" [("sub", CStr "admin"); ("exp", CTime 200); ("nbf", CTime 150)]
  = Some (CStr "admin")
  /\ dict_get "exp" [("sub", CStr "admin"); ("exp", CTime 200); ("nbf", CTime 150)]
     = Some (CTime 200)
  /\ (100 <= 200)%Z
  /\ sym_decode 100
       (sym_encode [("sub", CStr "admin"); ("exp", CTime 200); ("nbf", CTime 150)] "k")
       "k"
     = inl JWTClaimsError
  /\ get_current_user sym_token "k" "admin" sym_decode 100
       (sym_encode [("sub", CStr "admin"); ("exp", CTime 200); ("nbf", CTime 150)] "k")
     = inl credentials_exception
  /\ ~ (sym_decode 100
          (sym_encode [("sub", CStr "admin"); ("exp", CTime 200); ("nbf", CTime 150)]
                      "k") "k"
        = inl InvalidSignature
        \/ sym_decode 100
             (sym_encode [("sub", CStr "admin"); ("exp", CTime 200);
                          ("nbf", CTime 150)] "k") "k"
           = inl Malformed
        \/ sym_decode 100
             (sym_encode [("sub", CStr "admin"); ("exp", CTime 200);
                          ("nbf", CTime 150)] "k") "k"
           = inl ExpiredSignature
        \/ (exists p,
               sym_decode 100
                 (sym_encode [("sub", CStr "admin"); ("exp", CTime 200);
                              ("nbf", CTime 150)] "k") "k"
               = inr p
               /\ dict_get "sub" p = None)
        \/ (exists p sub,
               sym_decode 100
                 (sym_encode [("sub", CStr "admin"); ("exp", CTime 200);
                              ("nbf", CTime 150)] "k") "k"
               = inr p
               /\ dict_get "sub" p = Some sub
               /\ sub <> CStr "admin")).
Proof.
  split; [reflexivity|]. split; [reflexivity|]. split; [apply Z.leb_le; reflexivity|].
  split; [reflexivity|]. split; [reflexivity|].
  change (sym_decode 100
            (sym_encode [("sub", CStr "admin"); ("exp", CTime 200); ("nbf", CTime 150)]
                        "k") "k")
    with (@inl JWTError payload JWTClaimsError).
  intros [H|[H|[H|[[p [H _]]|[p [sub [H _]]]]]]]; discriminate.
Qed.

(** ** The template store *)

Section StoreFacts.

Lemma query_first_id (template_id : string) (db : Session) (row : TemplateDB) :
  query_first template_id db = Some row -> id row = template_id /\ In row db.
Proof.
  intros H. apply find_some in H as [Hin E]. apply String.eqb_eq in E. now split.
Qed.

Lemma assign_id (template_id : string) (template : TemplateBase) (row : TemplateDB) :
  id (assign template_id template row) = id row.
Proof. unfold assign. now destruct (String.eqb (id row) template_id). Qed.

Lemma assign_other (template_id : string) (template : TemplateBase) (row : TemplateDB) :
  id row <> template_id -> assign template_id template row = row.
Proof. intros H. unfold assign. apply String.eqb_neq in H. now rewrite H. Qed.

Lemma assign_same (template_id : string) (template : TemplateBase) (row : TemplateDB) :
  id row = template_id ->
  assign template_id template row
  = {| id := template_id;
       name := base_name template;
       content := base_content template |}.
Proof. intros H. unfold assign. rewrite H, String.eqb_refl. reflexivity. Qed.

Lemma query_first_assign (i template_id : string) (template : TemplateBase) (db : Session) :
  query_first i (map (assign template_id template) db)
  = option_map (assign template_id template) (query_first i db).
Proof.
  unfold query_first. induction db as [|row db IH]; simpl; [reflexivity|].
  rewrite assign_id. now destruct (String.eqb (id row) i).
Qed.

Lemma ids_assign (template_id : string) (template : TemplateBase) (db : Session) :
  map id (map (assign template_id template) db) = map id db.
Proof.
  rewrite map_map. apply map_ext. intros row. apply assign_id.
Qed.

Lemma query_first_delete_same (template_id : string) (db : Session) :
  query_first template_id
    (filter (fun row => negb (String.eqb (id row) template_id)) db) = None.
Proof.
  unfold query_first. induction db as [|row db IH]; simpl; [reflexivity|].
  destruct (String.eqb (id row) template_id) eqn:E; simpl; [exact IH|].
  now rewrite E.
Qed.

Lemma query_first_delete_other (i template_id : string) (db : Session) :
  i <> template_id ->
  query_first i (filter (fun row => negb (String.eqb (id row) template_id)) db)
  = query_first i db.
Proof.
  intros Hne. unfold query_first. induction db as [|row db IH]; simpl; [reflexivity|].
  destruct (String.eqb (id row) template_id) eqn:E; simpl.
  - apply String.eqb_eq in E.
    destruct (String.eqb (id row) i) eqn:E'; [|exact IH].
    apply String.eqb_eq in E'. congruence.
  - now rewrite IH.
Qed.

Lemma query_first_append (i : string) (db : Session) (row : TemplateDB) :
  query_first i db = None ->
  query_first i (db ++ [row])%list
  = if String.eqb (id row) i then Some row else None.
Proof.
  unfold query_first. induction db as [|r db IH]; simpl; [reflexivity|].
  destruct (String.eqb (id r) i); [discriminate | exact IH].
Qed.

Lemma update_template_found
    (template_id : string) (template : TemplateBase) (db : Session)
    (user : string) (row : TemplateDB) :
  query_first template_id db = Some row ->
  update_template template_id template db user
  = (map (assign template_id template) db,
     inr {| id := template_id;
            name := base_name template;
            content := base_content template |}).
Proof.
  intros H. unfold update_template. rewrite H.
  now destruct (query_first_id _ _ _ H) as [-> _].
Qed.

Lemma update_template_missing
    (template_id : string) (template : TemplateBase) (db : Session) (user : string) :
  query_first template_id db = None ->
  update_template template_id template db user = (db, inl not_found).
Proof. intros H. unfold update_template. now rewrite H. Qed.

Lemma delete_template_found
    (template_id : string) (db : Session) (user : string) (row : TemplateDB) :
  query_first template_id db = Some row ->
  delete_template template_id db user
  = (filter (fun r => negb (String.eqb (id r) template_id)) db,
     inr [("message", "Template deleted")]).
Proof. intros H. unfold delete_template. now rewrite H. Qed.

End StoreFacts.

(** C8. Update of an identifier that no record has fails with NotFound and
    leaves the store as it was. Otherwise it returns the record with the
    submitted name and content under the same identifier, the store holds
    that record under the identifier, the identifiers of the store are the
    same as before in the same order, and every record with another
    identifier is untouched. Create, then Update of the created record,
    then a lookup of its identifier gives the updated name and content
    under the identifier given at creation. *)
Theorem update_replaces_name_and_content :
  forall (db : Session) (template_id : string) (template : TemplateBase)
         (user : string),
    (query_first template_id db = None ->
     update_template template_id template db user = (db, inl not_found))
    /\ (forall row,
          query_first template_id db = Some row ->
          update_template template_id template db user
          = (map (assign template_id template) db,
             inr {| id := template_id;
                    name := base_name template;
                    content := base_content template |})
          /\ query_first template_id
               (fst (update_template template_id template db user))
             = Some {| id := template_id;
                       name := base_name template;
                       content := base_content template |}
          /\ map id (fst (update_template template_id template db user))
             = map id db
          /\ (forall other,
                other <> template_id ->
                query_first other
                  (fst (update_template template_id template db user))
                = query_first other db)
          /\ (forall r, id r <> template_id ->
                        assign template_id template r = r)
          /\ (forall r,
                In r (get_templates
                        (fst (update_template template_id template db user)) user) ->
                id r = template_id ->
                r = {| id := template_id;
                       name := base_name template;
                       content := base_content template |}))
    /\ (forall (created : TemplateBase),
          query_first template_id db = None ->
          snd (create_template template_id created db user)
          = inr {| id := template_id;
                   name := base_name created;
                   content := base_content created |}
          /\ snd (update_template template_id template
                    (fst (create_template template_id created db user)) user)
             = inr {| id := template_id;
                      name := base_name template;
                      content := base_content template |}
          /\ query_first template_id
               (fst (update_template template_id template
                       (fst (create_template template_id created db user)) user))
             = Some {| id := template_id;
                       name := base_name template;
                       content := base_content template |})
    /\ status_code not_found = 404.
Proof.
  intros db template_id template user. split; [|split; [|split]].
  - apply update_template_missing.
  - intros row H. rewrite (update_template_found _ _ _ _ _ H). cbn [fst].
    split; [reflexivity|]. split; [|split; [|split; [|split]]].
    + rewrite query_first_assign, H. cbn [option_map]. f_equal.
      apply assign_same. now destruct (query_first_id _ _ _ H).
    + apply ids_assign.
    + intros other Hne. rewrite query_first_assign.
      destruct (query_first other db) as [r|] eqn:E; [|reflexivity].
      cbn [option_map]. f_equal. apply assign_other.
      destruct (query_first_id _ _ _ E) as [-> _]. exact Hne.
    + intros r. apply assign_other.
    + intros r Hin Hid. unfold get_templates in Hin.
      apply in_map_iff in Hin as [r0 [<- _]].
      rewrite assign_id in Hid. now apply assign_same.
  - intros created Hfresh. unfold create_template. rewrite Hfresh. cbn [fst snd].
    set (row := {| id := template_id; name := base_name created;
                   content := base_content created |}).
    assert (Hq : query_first template_id (db ++ [row])%list = Some row).
    { rewrite (query_first_append _ _ _ Hfresh). cbn [id row].
      now rewrite String.eqb_refl. }
    rewrite (update_template_found _ _ _ _ _ Hq). cbn [fst snd].
    split; [reflexivity|]. split; [reflexivity|].
    rewrite query_first_assign, Hq. cbn [option_map]. f_equal.
    now apply assign_same.
  - reflexivity.
Qed.

Lemma update_replaces_name_and_content_witness :
  snd (update_template "t1" {| base_name := "new"; base_content := "<p>N</p>" |}
         (fst (create_template "t1" {| base_name := "old"; base_content := "<p>O</p>" |}
                 [] "admin")) "admin")
  = inr {| id := "t1"; name := "new"; content := "<p>N</p>" |}
  /\ update_template "t2" {| base_name := "new"; base_content := "<p>N</p>" |}
       [] "admin"
     = ([], inl not_found).
Proof.
  pose proof (update_replaces_name_and_content
                [] "t1" {| base_name := "new"; base_content := "<p>N</p>" |} "admin")
    as [_ [_ [Hcreate _]]].
  pose proof (update_replaces_name_and_content
                [] "t2" {| base_name := "new"; base_content := "<p>N</p>" |} "admin")
    as [Hmissing _].
  split.
  - exact (proj1 (proj2 (Hcreate {| base_name := "old"; base_content := "<p>O</p>" |}
                                 eq_refl))).
  - exact (Hmissing eq_refl).
Defined.

(** C9. Delete of an identifier that no record has fails with NotFound.
    Otherwise it returns the confirmation message, not the record, and
    removes every record with that identifier and no other: looking the
    identifier up afterwards finds nothing, so a later Update or Delete of
    it fails with NotFound. *)
Theorem delete_removes_the_record :
  forall (db : Session) (template_id : string) (user : string),
    (query_first template_id db = None ->
     delete_template template_id db user = (db, inl not_found))
    /\ (forall row,
          query_first template_id db = Some row ->
          snd (delete_template template_id db user)
          = inr [("message", "Template deleted")]
          /\ query_first template_id (fst (delete_template template_id db user))
             = None
          /\ (forall template,
                update_template template_id template
                  (fst (delete_template template_id db user)) user
                = (fst (delete_template template_id db user), inl not_found))
          /\ delete_template template_id
               (fst (delete_template template_id db user)) user
             = (fst (delete_template template_id db user), inl not_found)
          /\ (forall other,
                other <> template_id ->
                query_first other (fst (delete_template template_id db user))
                = query_first other db)
          /\ (forall r,
                In r (get_templates (fst (delete_template template_id db user)) user)
                <-> In r (get_templates db user) /\ id r <> template_id))
    /\ status_code not_found = 404.
Proof.
  intros db template_id user. split; [|split].
  - intros H. unfold delete_template. now rewrite H.
  - intros row H. rewrite !(delete_template_found _ _ _ _ H). cbn [fst snd].
    pose proof (query_first_delete_same template_id db) as Hgone.
    split; [reflexivity|]. split; [exact Hgone|]. split; [|split; [|split]].
    + intros template. now apply update_template_missing.
    + unfold delete_template. now rewrite Hgone.
    + intros other. apply query_first_delete_other.
    + intros r. unfold get_templates.
      rewrite filter_In, negb_true_iff, String.eqb_neq. reflexivity.
  - reflexivity.
Qed.

Lemma delete_removes_the_record_witness :
  snd (delete_template "t1" [{| id := "t1"; name := "n"; content := "c" |}] "admin")
  = inr [("message", "Template deleted")]
  /\ query_first "t1"
       (fst (delete_template "t1" [{| id := "t1"; name := "n"; content := "c" |}]
               "admin"))
     = None
  /\ delete_template "t1" [] "admin" = ([], inl not_found).
Proof.
  pose proof (delete_removes_the_record
                [{| id := "t1"; name := "n"; content := "c" |}] "t1" "admin")
    as [_ [Hfound _]].
  pose proof (delete_removes_the_record [] "t1" "admin") as [Hmissing _].
  destruct (Hfound _ eq_refl) as [Hmsg [Hgone _]].
  split; [exact Hmsg | split; [exact Hgone | exact (Hmissing eq_refl)]].
Defined.

(** * Further properties of the code *)

(** ** More facts about the mapping *)

Section UpdateFacts.

Lemma dict_set_nodup (k v : string) (d : dict) :
  NoDup (dict_keys d) -> NoDup (dict_keys (dict_set k v d)).
Proof.
  intros H. rewrite dict_keys_set.
  destruct (existsb (String.eqb k) (dict_keys d)) eqn:E; [exact H|].
  apply NoDup_app; [exact H | repeat constructor; intros [] |].
  intros x Hx [<-|[]]. apply existsb_eqb_in in Hx. congruence.
Qed.

Lemma fold_set_nodup (es : list (string * string)) (d : dict) :
  NoDup (dict_keys d) -> NoDup (dict_keys (fold_left set_entry es d)).
Proof.
  revert d. induction es as [|[k v] es IH]; intros d H; [exact H|].
  cbn [fold_left]. apply IH. now apply dict_set_nodup.
Qed.

Lemma fold_set_get_from (k : string) (es : list (string * string)) (d : dict) :
  dict_get k (fold_left set_entry es d)
  = match last_value k es with
    | Some v => Some v
    | None => dict_get k d
    end.
Proof.
  induction es as [|[k' v] es IH] using rev_ind; [reflexivity|].
  rewrite fold_left_app. cbn [fold_left]. unfold set_entry at 1. cbn [fst snd].
  rewrite dict_get_set, last_value_snoc, IH.
  now destruct (String.eqb k k').
Qed.

Lemma existsb_app_eqb (x : string) (l1 l2 : list string) :
  existsb (String.eqb x) (l1 ++ l2)
  = existsb (String.eqb x) l1 || existsb (String.eqb x) l2.
Proof. apply existsb_app. Qed.

Lemma fold_set_keys_from (es : list (string * string)) (d : dict) :
  dict_keys (fold_left set_entry es d)
  = (dict_keys d
     ++ filter (fun k => negb (existsb (String.eqb k) (dict_keys d)))
               (first_occurrences (map fst es)))%list.
Proof.
  induction es as [|[k v] es IH] using rev_ind.
  - simpl. now rewrite app_nil_r.
  - rewrite fold_left_app, map_app. cbn [fold_left map fst].
    unfold set_entry at 1. cbn [fst snd].
    rewrite dict_keys_set, IH, first_occurrences_snoc, existsb_app_eqb.
    destruct (existsb (String.eqb k) (dict_keys d)) eqn:Ed.
    + cbn [orb]. destruct (existsb (String.eqb k) (map fst es)); [reflexivity|].
      rewrite filter_app. cbn [filter]. rewrite Ed. cbn [negb].
      now rewrite app_nil_r.
    + cbn [orb].
      assert (Hf : existsb (String.eqb k)
                     (filter (fun k0 => negb (existsb (String.eqb k0) (dict_keys d)))
                             (first_occurrences (map fst es)))
                   = existsb (String.eqb k) (map fst es)).
      { rewrite <- (existsb_first_occurrences k (map fst es)).
        destruct (existsb (String.eqb k) (first_occurrences (map fst es))) eqn:E.
        - apply existsb_eqb_in. apply filter_In. split.
          + now apply existsb_eqb_in.
          + now rewrite Ed.
        - destruct (existsb _ (filter _ _)) eqn:E'; [|reflexivity].
          apply existsb_eqb_in, filter_In in E' as [E' _].
          apply (proj2 (existsb_eqb_in _ _)) in E'. congruence. }
      rewrite Hf. destruct (existsb (String.eqb k) (map fst es)); [reflexivity|].
      rewrite filter_app. cbn [filter]. rewrite Ed. cbn [negb].
      now rewrite app_assoc.
Qed.

Lemma filter_all (f : string -> bool) (l : list string) :
  (forall x, In x l -> f x = true) -> filter f l = l.
Proof.
  induction l as [|y l IH]; intros H; simpl; [reflexivity|].
  rewrite (H y (or_introl eq_refl)), IH; [reflexivity|].
  intros x Hx. apply H. now right.
Qed.

Lemma first_occurrences_nodup_id (l : list string) :
  NoDup l -> first_occurrences l = l.
Proof.
  induction 1 as [|x l Hx _ IH]; simpl; [reflexivity|].
  rewrite IH, filter_all; [reflexivity|].
  intros y Hy. apply negb_true_iff, String.eqb_neq. intros ->. now apply Hx.
Qed.

Lemma last_value_nodup (k : string) (d : dict) :
  NoDup (dict_keys d) -> last_value k d = dict_get k d.
Proof.
  induction d as [|[k0 v0] d IH]; intros H; simpl; [reflexivity|].
  cbn [dict_keys map fst] in H. apply NoDup_cons_iff in H as [Hk0 Hd].
  rewrite (IH Hd). destruct (String.eqb k k0) eqn:E.
  - apply String.eqb_eq in E. subst k0.
    now rewrite (proj2 (dict_get_none k d) Hk0).
  - now destruct (dict_get k d).
Qed.

(** Two mappings with the same keys in the same order and the same value
    under every key are the same mapping. *)
Lemma dict_ext (d1 d2 : dict) :
  NoDup (dict_keys d1) ->
  dict_keys d1 = dict_keys d2 ->
  (forall k, dict_get k d1 = dict_get k d2) ->
  d1 = d2.
Proof.
  revert d2. induction d1 as [|[k1 v1] d1 IH]; intros [|[k2 v2] d2] Hnd Hk Hg;
    try discriminate; [reflexivity|].
  cbn [dict_keys map fst] in Hk, Hnd. injection Hk as <- Hk.
  apply NoDup_cons_iff in Hnd as [Hk1 Hnd].
  pose proof (Hg k1) as Hv. simpl in Hv. rewrite String.eqb_refl in Hv.
  injection Hv as <-. f_equal. apply IH; [exact Hnd | exact Hk|].
  intros k. specialize (Hg k). simpl in Hg.
  destruct (String.eqb k k1) eqn:E; [|exact Hg].
  apply String.eqb_eq in E. subst k.
  rewrite (proj2 (dict_get_none k1 d1) Hk1).
  symmetry. apply dict_get_none. unfold dict_keys in *. now rewrite <- Hk.
Qed.

Lemma split_append_newline (t1 t2 : string) :
  PyStr.split PyStr.newline (t1 ++ String PyStr.newline t2)
  = (PyStr.split PyStr.newline t1 ++ PyStr.split PyStr.newline t2)%list.
Proof.
  induction t1 as [|c t1 IH]; cbn [append PyStr.split].
  - now rewrite Ascii.eqb_refl.
  - rewrite IH. destruct (Ascii.eqb c PyStr.newline); [reflexivity|].
    destruct (PyStr.split PyStr.newline t1) eqn:E; [|reflexivity].
    now destruct (split_nonempty _ _ E).
Qed.

Lemma parse_keys_nodup (text : string) :
  NoDup (dict_keys (parse_text_replacements text)).
Proof.
  rewrite parse_text_extracted. apply fold_set_nodup. constructor.
Qed.

End UpdateFacts.

(** X1. Extracting from two texts joined by a newline gives the mapping of
    the first text updated with the mapping of the second: the keys of the
    first keep their places, new keys follow in the order of the second,
    and under a key of both the value of the second text stands. *)
Theorem extraction_of_joined_texts :
  forall t1 t2 : string,
    parse_text_replacements (t1 ++ String PyStr.newline t2)
    = dict_update (parse_text_replacements t1) (parse_text_replacements t2)
    /\ (forall k,
          dict_get k (parse_text_replacements (t1 ++ String PyStr.newline t2))
          = match dict_get k (parse_text_replacements t2) with
            | Some v => Some v
            | None => dict_get k (parse_text_replacements t1)
            end)
    /\ dict_keys (parse_text_replacements (t1 ++ String PyStr.newline t2))
       = (dict_keys (parse_text_replacements t1)
          ++ filter (fun k => negb (existsb (String.eqb k)
                                      (dict_keys (parse_text_replacements t1))))
                    (dict_keys (parse_text_replacements t2)))%list.
Proof.
  intros t1 t2.
  assert (Hjoin : parse_text_replacements (t1 ++ String PyStr.newline t2)
                  = fold_left set_entry (extracted t2) (parse_text_replacements t1)).
  { unfold parse_text_replacements at 1. rewrite split_append_newline, fold_left_app.
    fold (parse_text_replacements t1). unfold extracted. apply parse_lines_fold.
    apply Forall_forall. intros line. apply split_lines_dot. }
  assert (Hget : forall k,
             dict_get k (parse_text_replacements (t1 ++ String PyStr.newline t2))
             = match dict_get k (parse_text_replacements t2) with
               | Some v => Some v
               | None => dict_get k (parse_text_replacements t1)
               end).
  { intros k. rewrite Hjoin, fold_set_get_from.
    now rewrite (parse_text_extracted t2), fold_set_get. }
  assert (Hkeys : dict_keys (parse_text_replacements (t1 ++ String PyStr.newline t2))
                  = (dict_keys (parse_text_replacements t1)
                     ++ filter (fun k => negb (existsb (String.eqb k)
                                      (dict_keys (parse_text_replacements t1))))
                               (dict_keys (parse_text_replacements t2)))%list).
  { rewrite Hjoin, fold_set_keys_from.
    now rewrite (parse_text_extracted t2), fold_set_keys. }
  split; [|split; [exact Hget | exact Hkeys]].
  apply dict_ext.
  - apply parse_keys_nodup.
  - rewrite Hkeys. unfold dict_update. rewrite fold_set_keys_from.
    change (map fst (parse_text_replacements t2))
      with (dict_keys (parse_text_replacements t2)).
    now rewrite (first_occurrences_nodup_id _ (parse_keys_nodup t2)).
  - intros k. rewrite Hget. unfold dict_update. rewrite fold_set_get_from.
    now rewrite (last_value_nodup k _ (parse_keys_nodup t2)).
Qed.

(** ** More facts about the extractor *)

Section ExtractorMore.

Lemma in_dict_set (kv : string * string) (k v : string) (d : dict) :
  In kv (dict_set k v d) -> kv = (k, v) \/ In kv d.
Proof.
  induction d as [|[k0 v0] d IH]; simpl.
  - intros [<-|[]]. now left.
  - destruct (String.eqb k k0); simpl.
    + intros [<-|H]; [now left | right; now right].
    + intros [<-|H]; [right; now left|].
      destruct (IH H) as [->|H']; [now left | right; now right].
Qed.

Lemma in_fold_set (kv : string * string) (es : list (string * string)) (d : dict) :
  In kv (fold_left set_entry es d) -> In kv d \/ In kv es.
Proof.
  revert d. induction es as [|[k v] es IH]; intros d H; [now left|].
  cbn [fold_left] in H. destruct (IH _ H) as [H'|H']; [|right; now right].
  unfold set_entry in H'. cbn [fst snd] in H'.
  destruct (in_dict_set _ _ _ _ H') as [->|H'']; [right; now left | now left].
Qed.

Lemma strip_idempotent (s : string) : PyStr.strip (PyStr.strip s) = PyStr.strip s.
Proof.
  unfold PyStr.strip.
  now rewrite lstrip_rstrip, lstrip_idempotent, rstrip_idempotent.
Qed.

Lemma all_marker_line (cls : ascii -> bool) (raw rest : string) :
  all cls ("**" ++ raw ++ ":**" ++ rest) = true ->
  all cls raw = true /\ all cls rest = true.
Proof.
  rewrite !all_append, !andb_true_iff. tauto.
Qed.

Lemma length_dict_set (k v : string) (d : dict) :
  List.length (dict_set k v d) <= S (List.length d).
Proof.
  induction d as [|[k0 v0] d IH]; simpl; [lia|].
  destruct (String.eqb k k0); simpl; lia.
Qed.

Lemma length_fold_set (es : list (string * string)) (d : dict) :
  List.length (fold_left set_entry es d) <= List.length d + List.length es.
Proof.
  revert d. induction es as [|[k v] es IH]; intros d; simpl; [lia|].
  specialize (IH (set_entry d (k, v))).
  pose proof (length_dict_set k v d). unfold set_entry in *. simpl in *. lia.
Qed.

Lemma length_extracted (text : string) :
  List.length (extracted text) <= List.length (PyStr.split PyStr.newline text).
Proof.
  unfold extracted. induction (PyStr.split PyStr.newline text) as [|line lines IH];
    simpl; [lia|].
  rewrite length_app. destruct (line_entry line); simpl; lia.
Qed.

Lemma annotated_colon_free (raw rest : string) :
  raw <> "" ->
  all (fun c => negb (Ascii.eqb c ":")) raw = true ->
  annotated ("**" ++ raw ++ ":**" ++ rest) raw rest.
Proof.
  intros Hne Hraw. repeat split; [exact Hne|].
  intros raw' rest' Hraw' Heq. apply (append_inv_head "**") in Heq.
  destruct (Nat.le_gt_cases (String.length raw) (String.length raw')) as [Hle|Hlt];
    [exact Hle|].
  destruct (append_split raw (":**" ++ rest) raw' (":**" ++ rest') Heq ltac:(lia))
    as [m [Hsplit Hm]].
  destruct m as [|c m].
  - rewrite append_empty_r in Hsplit. subst raw'. lia.
  - simpl in Hm. injection Hm as <- _. subst raw.
    rewrite all_append in Hraw. apply andb_true_iff in Hraw as [_ Hraw].
    simpl in Hraw. discriminate.
Qed.

Lemma lstrip_pad (pad s : string) :
  all PyStr.is_space pad = true -> PyStr.lstrip (pad ++ s) = PyStr.lstrip s.
Proof.
  induction pad as [|c pad IH]; simpl; [reflexivity|].
  intros H. apply andb_true_iff in H as [Hc Hp]. rewrite Hc. now apply IH.
Qed.

Lemma rstrip_pad (s pad : string) :
  all PyStr.is_space pad = true -> PyStr.rstrip (s ++ pad) = PyStr.rstrip s.
Proof.
  intros H. rewrite rstrip_append. now rewrite (rstrip_all_space pad H).
Qed.

Lemma strip_padded (pad line pad' : string) :
  all PyStr.is_space pad = true -> all PyStr.is_space pad' = true ->
  PyStr.strip (pad ++ line ++ pad') = PyStr.strip line.
Proof.
  intros Hp Hp'. unfold PyStr.strip.
  rewrite (lstrip_pad pad _ Hp), <- lstrip_rstrip, (rstrip_pad line pad' Hp').
  apply lstrip_rstrip.
Qed.

Lemma parse_lines_unmarked (lines : list string) (d : dict) :
  (forall line, In line lines ->
     all Re.dot line = true /\ PyStr.startswith "**" (PyStr.strip line) = false) ->
  fold_left parse_line lines d = d.
Proof.
  induction lines as [|line lines IH]; intros H; [reflexivity|].
  cbn [fold_left]. destruct (H line (or_introl eq_refl)) as [Hall Hs].
  rewrite (parse_line_marker d line Hall). unfold split_marker. rewrite Hs.
  apply IH. intros l Hl. apply H. now right.
Qed.

End ExtractorMore.

(** X2. Every entry of an extracted mapping is in normal form: its key and
    its value carry no leading or trailing whitespace and no newline, and
    the key is outside the exclusion set. *)
Theorem extracted_entries_are_trimmed :
  forall (text k v : string),
    In (k, v) (parse_text_replacements text) ->
    PyStr.strip k = k /\ PyStr.strip v = v
    /\ all Re.dot k = true /\ all Re.dot v = true
    /\ ~ In k ignored_keys.
Proof.
  intros text k v Hin. rewrite parse_text_extracted in Hin.
  apply in_fold_set in Hin as [[]|Hin].
  apply in_extracted in Hin as [line [Hl He]].
  pose proof (split_lines_dot _ _ Hl) as Hall.
  apply (line_entry_spec _ _ _ Hall) in He as [raw [rest [[Heq _] [-> [-> Hi]]]]].
  pose proof (strip_all _ _ Hall) as Hs. rewrite Heq in Hs.
  apply all_marker_line in Hs as [Hraw Hrest].
  rewrite !strip_idempotent. repeat split; try reflexivity.
  - now apply strip_all.
  - now apply strip_all.
  - intros Hbad. apply is_ignored_in in Hbad. congruence.
Qed.

Lemma extracted_entries_are_trimmed_witness :
  PyStr.strip "Title" = "Title" /\ PyStr.strip "Hello World" = "Hello World"
  /\ all Re.dot "Title" = true /\ all Re.dot "Hello World" = true
  /\ ~ In "Title" ignored_keys.
Proof.
  apply (extracted_entries_are_trimmed "  **  Title :**   Hello World  ").
  left. reflexivity.
Defined.

(** X3. The mapping has at most one entry per line of the input, and the
    substitution count of a generation never exceeds the size of the
    mapping, so it never exceeds the number of input lines. *)
Theorem count_is_bounded_by_lines :
  forall (request : GenerationRequest) (user : string),
    replacements_count (generate_html request user)
    <= List.length (parse_text_replacements (input_text request))
    /\ List.length (parse_text_replacements (input_text request))
       <= List.length (PyStr.split PyStr.newline (input_text request)).
Proof.
  intros request user. split.
  - unfold generate_html.
    pose proof (render_count_bound (parse_text_replacements (input_text request))
                                   (template_content request) 0) as H.
    unfold render. now destruct (fold_left render_step _ _) as [html count].
  - rewrite parse_text_extracted.
    pose proof (length_fold_set (extracted (input_text request)) []).
    pose proof (length_extracted (input_text request)). simpl in *. lia.
Qed.

(** X4. A single annotated line whose key text is not empty and holds no
    colon is read in full: the mapping is the one entry from the trimmed
    key to the trimmed remainder (or empty when that key is excluded), and
    generation replaces that key in the template when it occurs there. *)
Theorem colon_free_key_line :
  forall (raw rest body user : string),
    raw <> "" ->
    all (fun c => negb (Ascii.eqb c ":")) raw = true ->
    all Re.dot raw = true ->
    all Re.dot rest = true ->
    parse_text_replacements ("**" ++ raw ++ ":**" ++ rest)
    = (if is_ignored (PyStr.strip raw) then []
       else [(PyStr.strip raw, PyStr.strip rest)])
    /\ generate_html {| template_content := body;
                        input_text := "**" ++ raw ++ ":**" ++ rest |} user
       = if is_ignored (PyStr.strip raw)
         then {| generated_html := body; replacements_count := 0 |}
         else if PyStr.contains (PyStr.strip raw) body
              then {| generated_html :=
                        PyStr.replace (PyStr.strip raw) (PyStr.strip rest) body;
                      replacements_count := 1 |}
              else {| generated_html := body; replacements_count := 0 |}.
Proof.
  intros raw rest body user Hne Hcolon Hdraw Hdrest.
  assert (Hline : all Re.dot ("**" ++ raw ++ ":**" ++ rest) = true).
  { rewrite !all_append, Hdraw, Hdrest. reflexivity. }
  assert (Hparse : parse_text_replacements ("**" ++ raw ++ ":**" ++ rest)
                   = (if is_ignored (PyStr.strip raw) then []
                      else [(PyStr.strip raw, PyStr.strip rest)])).
  { unfold parse_text_replacements. rewrite (split_single _ Hline). cbn [fold_left].
    rewrite (parse_line_annotated [] _ raw (PyStr.rstrip rest) Hline).
    - now rewrite strip_rstrip.
    - rewrite strip_marker_line. now apply annotated_colon_free. }
  split; [exact Hparse|].
  unfold generate_html. cbn [template_content input_text]. rewrite Hparse.
  destruct (is_ignored (PyStr.strip raw)); [reflexivity|].
  unfold render. cbn [fold_left render_step].
  now destruct (PyStr.contains (PyStr.strip raw) body).
Qed.

Lemma colon_free_key_line_witness :
  parse_text_replacements "**NAME:** Alice" = [("NAME", "Alice")]
  /\ generate_html {| template_content := "Hi NAME";
                      input_text := "**NAME:** Alice" |} "admin"
     = {| generated_html := "Hi Alice"; replacements_count := 1 |}.
Proof.
  apply (colon_free_key_line "NAME" " Alice" "Hi NAME" "admin");
    [discriminate | reflexivity | reflexivity | reflexivity].
Defined.

(** X5. The marker counts only at the start of a stripped line: when no
    stripped line of the input begins with two asterisks, the mapping is
    empty and generation returns the template unchanged with count 0,
    whatever markers stand further inside the lines. *)
Theorem unmarked_text_changes_nothing :
  forall (text body user : string),
    (forall line, In line (PyStr.split PyStr.newline text) ->
                  PyStr.startswith "**" (PyStr.strip line) = false) ->
    parse_text_replacements text = []
    /\ generate_html {| template_content := body; input_text := text |} user
       = {| generated_html := body; replacements_count := 0 |}.
Proof.
  intros text body user H.
  assert (Hparse : parse_text_replacements text = []).
  { unfold parse_text_replacements. apply parse_lines_unmarked.
    intros line Hl. split; [now apply (split_lines_dot text) | now apply H]. }
  split; [exact Hparse|].
  unfold generate_html. cbn [template_content input_text]. now rewrite Hparse.
Qed.

Lemma unmarked_text_changes_nothing_witness :
  parse_text_replacements "see **k:** v" = []
  /\ generate_html {| template_content := "k"; input_text := "see **k:** v" |} "admin"
     = {| generated_html := "k"; replacements_count := 0 |}.
Proof.
  apply (unmarked_text_changes_nothing "see **k:** v" "k" "admin").
  intros line [<-|[]]. reflexivity.
Defined.

(** X6. Whitespace around a line does not matter to the extractor: a line
    padded with whitespace on either side is read as the line itself. *)
Theorem padding_is_ignored :
  forall (d : dict) (pad line pad' : string),
    all PyStr.is_space pad = true ->
    all PyStr.is_space pad' = true ->
    parse_line d (pad ++ line ++ pad') = parse_line d line.
Proof.
  intros d pad line pad' Hp Hp'. unfold parse_line.
  now rewrite (strip_padded pad line pad' Hp Hp').
Qed.

Lemma padding_is_ignored_witness :
  parse_line [] ("  " ++ "**k:** v" ++ " ") = parse_line [] "**k:** v".
Proof.
  apply (padding_is_ignored [] "  " "**k:** v" " "); reflexivity.
Defined.

(** ** More facts about the renderer *)

Section RendererMore.

Lemma fold_count_from (m : dict) (body : string) (count : nat) :
  count <= snd (fold_left render_step m (body, count)).
Proof. rewrite render_fold_count. simpl. lia. Qed.

Lemma fold_untouched (m : dict) (body : string) (count : nat) :
  (snd (fold_left render_step m (body, count)) = count
   <-> forall k, In k (dict_keys m) -> ~ occurs k body)
  /\ (snd (fold_left render_step m (body, count)) = count ->
      fst (fold_left render_step m (body, count)) = body).
Proof.
  revert body count. induction m as [|[k v] m IH]; intros body count.
  - simpl. split; [|reflexivity]. split; [intros _ k [] | reflexivity].
  - cbn [fold_left dict_keys map fst]. destruct (PyStr.contains k body) eqn:E.
    + apply contains_spec in E. rewrite (render_step_hit k v body count E).
      pose proof (fold_count_from m (PyStr.replace k v body) (S count)) as Hge.
      split; [split|]; try (intros H; lia).
      intros H. exfalso. apply (H k); [now left | exact E].
    + apply contains_false in E. rewrite (render_step_miss k v body count E).
      destruct (IH body count) as [IH1 IH2]. split; [|exact IH2].
      rewrite IH1. split.
      * intros H k' [<-|Hk']; [exact E | now apply H].
      * intros H k' Hk'. apply H. now right.
Qed.

Lemma interleave_nothing (s : string) : PyStr.interleave "" s = s.
Proof. induction s as [|c s IH]; simpl; [reflexivity | now rewrite IH]. Qed.

Lemma replaced_by_itself (k s : string) : k <> "" -> replaced_all k k s s.
Proof.
  intros Hk. remember (String.length s) as n eqn:Hn. revert s Hn.
  induction n as [n IH] using lt_wf_ind. intros s Hn.
  destruct (PyStr.contains k s) eqn:E.
  - apply contains_spec, occurs_leftmost in E as [a [b [-> Hl]]].
    apply replaced_leftmost; try assumption.
    apply (IH (String.length b)); [|reflexivity].
    rewrite Hn, !length_append. destruct k; [congruence | simpl; lia].
  - apply contains_false in E. now apply replaced_absent.
Qed.

Lemma replace_by_itself (k s : string) : PyStr.replace k k s = s.
Proof.
  destruct (string_dec k "") as [->|Hk].
  - apply interleave_nothing.
  - symmetry. apply replaced_all_unique. now apply replaced_by_itself.
Qed.

End RendererMore.

(** X7. The count is zero exactly when no key of the mapping occurs in the
    template, and a zero count means the template comes back unchanged,
    from the renderer and from the generation operation alike. *)
Theorem zero_count_means_unchanged :
  forall (m : dict) (body : string),
    (snd (render m body) = 0
     <-> forall k, In k (dict_keys m) -> ~ occurs k body)
    /\ (snd (render m body) = 0 -> fst (render m body) = body)
    /\ (forall request user,
          replacements_count (generate_html request user) = 0 ->
          generated_html (generate_html request user) = template_content request).
Proof.
  intros m body. split; [|split].
  - apply (fold_untouched m body 0).
  - apply (fold_untouched m body 0).
  - intros request user. unfold generate_html, render.
    pose proof (proj2 (fold_untouched (parse_text_replacements (input_text request))
                                      (template_content request) 0)) as H.
    destruct (fold_left render_step
                (parse_text_replacements (input_text request)) _) as [html count].
    exact H.
Qed.

(** X8. An entry whose value is its own key leaves the body as it is, yet
    it is counted when the key occurs: the count reports keys found, not
    changes made. *)
Theorem self_replacement_is_counted :
  forall (k body : string),
    PyStr.replace k k body = body
    /\ render [(k, k)] body = (body, if PyStr.contains k body then 1 else 0).
Proof.
  intros k body. split; [apply replace_by_itself|].
  unfold render. cbn [fold_left render_step].
  destruct (PyStr.contains k body); [|reflexivity].
  now rewrite replace_by_itself.
Qed.

(** ** More facts about the template store *)

Section StoreMore.

Lemma query_first_none (template_id : string) (db : Session) :
  query_first template_id db = None <-> ~ In template_id (map id db).
Proof.
  unfold query_first. induction db as [|row db IH]; simpl.
  - split; [intros _ [] | reflexivity].
  - destruct (String.eqb (id row) template_id) eqn:E.
    + apply String.eqb_eq in E. split; [discriminate|]. intros H. exfalso. apply H.
      now left.
    + apply String.eqb_neq in E. rewrite IH. split.
      * intros H [H'|H']; [congruence | now apply H].
      * intros H H'. apply H. now right.
Qed.

Lemma ids_filter_nodup (p : TemplateDB -> bool) (db : Session) :
  NoDup (map id db) -> NoDup (map id (filter p db)).
Proof.
  induction db as [|row db IH]; simpl; intros H; [constructor|].
  apply NoDup_cons_iff in H as [Hrow Hdb]. destruct (p row); simpl; [|now apply IH].
  constructor; [|now apply IH].
  intros Hin. apply Hrow. apply in_map_iff in Hin as [r [Hr Hin]].
  apply filter_In in Hin as [Hin _]. apply in_map_iff. now exists r.
Qed.

Lemma assign_twice (template_id : string) (t1 t2 : TemplateBase) (row : TemplateDB) :
  assign template_id t2 (assign template_id t1 row) = assign template_id t2 row.
Proof.
  unfold assign. destruct (String.eqb (id row) template_id) eqn:E; simpl;
    now rewrite E.
Qed.

Lemma assign_commute (i j : string) (t1 t2 : TemplateBase) (row : TemplateDB) :
  i <> j ->
  assign i t1 (assign j t2 row) = assign j t2 (assign i t1 row).
Proof.
  intros Hne. unfold assign.
  destruct (String.eqb (id row) i) eqn:Ei, (String.eqb (id row) j) eqn:Ej;
    simpl; rewrite ?Ei, ?Ej; try reflexivity.
  apply String.eqb_eq in Ei, Ej. congruence.
Qed.

Lemma filter_assign (i j : string) (t : TemplateBase) (db : Session) :
  filter (fun row => negb (String.eqb (id row) j)) (map (assign i t) db)
  = map (assign i t) (filter (fun row => negb (String.eqb (id row) j)) db).
Proof.
  induction db as [|row db IH]; simpl; [reflexivity|].
  rewrite assign_id, IH. now destruct (String.eqb (id row) j).
Qed.

Lemma filter_fresh (template_id : string) (db : Session) :
  query_first template_id db = None ->
  filter (fun row => negb (String.eqb (id row) template_id)) db = db.
Proof.
  unfold query_first. induction db as [|row db IH]; simpl; [reflexivity|].
  destruct (String.eqb (id row) template_id); [discriminate|].
  intros H. simpl. now rewrite IH.
Qed.

Lemma update_store (template_id : string) (template : TemplateBase)
    (db : Session) (user : string) :
  fst (update_template template_id template db user)
  = map (assign template_id template) db.
Proof.
  unfold update_template. destruct (query_first template_id db) as [row|] eqn:E;
    [reflexivity|].
  cbn [fst]. symmetry.
  assert (H : forall r, In r db -> assign template_id template r = r).
  { intros r Hr. apply assign_other. intros Hid.
    apply query_first_none in E. apply E. apply in_map_iff. now exists r. }
  clear E. induction db as [|r db IH]; simpl; [reflexivity|].
  rewrite (H r (or_introl eq_refl)), IH; [reflexivity|].
  intros r' Hr'. apply H. now right.
Qed.

Lemma delete_store (template_id : string) (db : Session) (user : string) :
  fst (delete_template template_id db user)
  = filter (fun row => negb (String.eqb (id row) template_id)) db.
Proof.
  unfold delete_template. destruct (query_first template_id db) as [row|] eqn:E;
    [reflexivity|].
  cbn [fst]. symmetry. now apply filter_fresh.
Qed.

Lemma ids_injective (db : Session) (r r' : TemplateDB) :
  NoDup (map id db) -> In r db -> In r' db -> id r = id r' -> r = r'.
Proof.
  induction db as [|row db IH]; simpl; intros H Hr Hr' Hid; [destruct Hr|].
  apply NoDup_cons_iff in H as [Hrow Hdb].
  destruct Hr as [<-|Hr], Hr' as [<-|Hr'].
  - reflexivity.
  - exfalso. apply Hrow. rewrite Hid. now apply in_map.
  - exfalso. apply Hrow. rewrite <- Hid. now apply in_map.
  - now apply IH.
Qed.

Lemma delete_length (template_id : string) (db : Session) (row : TemplateDB) :
  NoDup (map id db) ->
  query_first template_id db = Some row ->
  S (List.length (filter (fun r => negb (String.eqb (id r) template_id)) db))
  = List.length db.
Proof.
  unfold query_first. induction db as [|r db IH]; simpl; intros H Hq; [discriminate|].
  apply NoDup_cons_iff in H as [Hr Hdb].
  destruct (String.eqb (id r) template_id) eqn:E; simpl.
  - apply String.eqb_eq in E. f_equal. f_equal. apply filter_fresh.
    apply query_first_none. now rewrite <- E.
  - f_equal. now apply IH.
Qed.

End StoreMore.

(** X9. The primary key stays a key: when no two rows of the table share
    an identifier, that is still so after any Create, Update or Delete,
    whatever its arguments and whether it succeeds or fails. *)
Theorem store_keeps_identifiers_unique :
  forall (db : Session),
    NoDup (map id db) ->
    (forall uuid template user,
        NoDup (map id (fst (create_template uuid template db user))))
    /\ (forall template_id template user,
          NoDup (map id (fst (update_template template_id template db user))))
    /\ (forall template_id user,
          NoDup (map id (fst (delete_template template_id db user)))).
Proof.
  intros db H. split; [|split].
  - intros uuid template user. unfold create_template.
    destruct (query_first uuid db) as [row|] eqn:E; cbn [fst]; [exact H|].
    rewrite map_app. cbn [map id].
    apply NoDup_app; [exact H | repeat constructor; intros [] |].
    intros x Hx [<-|[]]. now apply query_first_none in E.
  - intros template_id template user. now rewrite update_store, ids_assign.
  - intros template_id user. rewrite delete_store. now apply ids_filter_nodup.
Qed.

Lemma store_keeps_identifiers_unique_witness :
  NoDup (map id (fst (create_template "b" {| base_name := "n"; base_content := "c" |}
                        [{| id := "a"; name := "x"; content := "y" |}] "admin"))).
Proof.
  refine (proj1 (store_keeps_identifiers_unique
                   [{| id := "a"; name := "x"; content := "y" |}] _) _ _ _).
  repeat constructor. intros [].
Defined.

(** X10. The last Update wins: updating a record twice gives the same
    store and the same answer as the second Update alone, so repeating an
    Update changes nothing. *)
Theorem update_last_write_wins :
  forall (db : Session) (template_id : string) (t1 t2 : TemplateBase)
         (user : string),
    update_template template_id t2
      (fst (update_template template_id t1 db user)) user
    = update_template template_id t2 db user.
Proof.
  intros db template_id t1 t2 user.
  destruct (query_first template_id db) as [row|] eqn:E.
  - rewrite (update_template_found _ t1 _ _ _ E). cbn [fst].
    assert (E' : query_first template_id (map (assign template_id t1) db)
                 = Some (assign template_id t1 row)).
    { now rewrite query_first_assign, E. }
    rewrite (update_template_found _ t2 _ _ _ E'), (update_template_found _ t2 _ _ _ E).
    f_equal. rewrite map_map. apply map_ext. intros r. apply assign_twice.
  - now rewrite (update_template_missing _ t1 _ _ E).
Qed.

(** X11. Operations on different identifiers do not interfere: an Update
    of one record and a Delete or an Update of another leave the same
    store in either order. *)
Theorem store_operations_commute :
  forall (db : Session) (i j : string) (t1 t2 : TemplateBase) (user : string),
    i <> j ->
    fst (update_template i t1 (fst (delete_template j db user)) user)
    = fst (delete_template j (fst (update_template i t1 db user)) user)
    /\ fst (update_template i t1 (fst (update_template j t2 db user)) user)
       = fst (update_template j t2 (fst (update_template i t1 db user)) user).
Proof.
  intros db i j t1 t2 user Hne. split.
  - rewrite !update_store, !delete_store. symmetry. apply filter_assign.
  - rewrite !update_store, !map_map. apply map_ext. intros r.
    now apply assign_commute.
Qed.

Lemma store_operations_commute_witness :
  fst (update_template "a" {| base_name := "n"; base_content := "c" |}
         (fst (delete_template "b"
                 [{| id := "a"; name := "x"; content := "y" |};
                  {| id := "b"; name := "u"; content := "v" |}] "admin")) "admin")
  = [{| id := "a"; name := "n"; content := "c" |}].
Proof.
  rewrite (proj1 (store_operations_commute
                    [{| id := "a"; name := "x"; content := "y" |};
                     {| id := "b"; name := "u"; content := "v" |}]
                    "a" "b" {| base_name := "n"; base_content := "c" |}
                    {| base_name := "n"; base_content := "c" |} "admin"
                    ltac:(discriminate))).
  reflexivity.
Defined.

(** X12. Create with an unused identifier appends the new record, leaves
    the lookup of every other identifier as it was, and is undone by a
    Delete of the new identifier, which brings back the store as it was. *)
Theorem create_then_delete_restores :
  forall (db : Session) (uuid : string) (template : TemplateBase) (user : string),
    query_first uuid db = None ->
    get_templates (fst (create_template uuid template db user)) user
    = (get_templates db user
       ++ [{| id := uuid; name := base_name template;
              content := base_content template |}])%list
    /\ (forall other, other <> uuid ->
          query_first other (fst (create_template uuid template db user))
          = query_first other db)
    /\ delete_template uuid (fst (create_template uuid template db user)) user
       = (db, inr [("message", "Template deleted")]).
Proof.
  intros db uuid template user Hfresh. unfold create_template. rewrite Hfresh.
  cbn [fst]. set (row := {| id := uuid; name := base_name template;
                            content := base_content template |}).
  split; [reflexivity|]. split.
  - intros other Hne. unfold query_first. clear Hfresh.
    induction db as [|r db IH]; simpl.
    + apply not_eq_sym, String.eqb_neq in Hne. now rewrite Hne.
    + now destruct (String.eqb (id r) other).
  - assert (Hq : query_first uuid (db ++ [row])%list = Some row).
    { rewrite (query_first_append _ _ _ Hfresh). cbn [id row].
      now rewrite String.eqb_refl. }
    rewrite (delete_template_found _ _ _ _ Hq).
    rewrite filter_app, (filter_fresh _ _ Hfresh). simpl.
    rewrite String.eqb_refl. simpl. now rewrite app_nil_r.
Qed.

Lemma create_then_delete_restores_witness :
  delete_template "b"
    (fst (create_template "b" {| base_name := "n"; base_content := "c" |}
            [{| id := "a"; name := "x"; content := "y" |}] "admin")) "admin"
  = ([{| id := "a"; name := "x"; content := "y" |}],
     inr [("message", "Template deleted")]).
Proof.
  exact (proj2 (proj2 (create_then_delete_restores
                         [{| id := "a"; name := "x"; content := "y" |}] "b"
                         {| base_name := "n"; base_content := "c" |} "admin"
                         eq_refl))).
Defined.

(** X13. In a table whose identifiers are unique, a successful Delete
    removes exactly one row, the one the lookup found: the table is one row
    shorter and holds exactly the other rows. *)
Theorem delete_removes_exactly_one_row :
  forall (db : Session) (template_id : string) (user : string) (row : TemplateDB),
    NoDup (map id db) ->
    query_first template_id db = Some row ->
    S (List.length (get_templates (fst (delete_template template_id db user)) user))
    = List.length (get_templates db user)
    /\ (forall r,
          In r (get_templates (fst (delete_template template_id db user)) user)
          <-> In r (get_templates db user) /\ r <> row).
Proof.
  intros db template_id user row Hnd Hq. rewrite delete_store. unfold get_templates.
  split; [now apply (delete_length template_id db row)|].
  destruct (query_first_id _ _ _ Hq) as [Hid Hin].
  intros r. rewrite filter_In, negb_true_iff, String.eqb_neq. split.
  - intros [Hr Hne]. split; [exact Hr|]. intros ->. now apply Hne.
  - intros [Hr Hne]. split; [exact Hr|]. intros Hid'. apply Hne.
    apply (ids_injective db); try assumption. congruence.
Qed.

Lemma delete_removes_exactly_one_row_witness :
  S (List.length
       (get_templates
          (fst (delete_template "a"
                  [{| id := "a"; name := "x"; content := "y" |};
                   {| id := "b"; name := "u"; content := "v" |}] "admin")) "admin"))
  = 2.
Proof.
  refine (proj1 (delete_removes_exactly_one_row
                   [{| id := "a"; name := "x"; content := "y" |};
                    {| id := "b"; name := "u"; content := "v" |}]
                   "a" "admin" {| id := "a"; name := "x"; content := "y" |} _ eq_refl)).
  repeat constructor; simpl; intuition discriminate.
Defined.

(** ** More facts about token issue *)

Lemma dict_set_twice {V : Type} (k : string) (v v' : V) (d : dict_of V) :
  dict_set k v (dict_set k v' d) = dict_set k v d.
Proof.
  induction d as [|[k0 v0] d IH]; simpl.
  - now rewrite String.eqb_refl.
  - destruct (String.eqb k k0) eqn:E; simpl.
    + now rewrite String.eqb_refl.
    + now rewrite E, IH.
Qed.

Section AuthMore.

Variable token : Type.
Variables SECRET_KEY ADMIN_USERNAME_ENV : string.
Variable jwt_encode : payload -> string -> token.
Variable jwt_decode : Z -> token -> string -> JWTError + payload.

(** The same contract of the token library as before. *)
Hypothesis decode_encode :
  forall (utcnow : Z) (sub key : string) (e : Z),
    jwt_decode utcnow (jwt_encode [("sub", CStr sub); ("exp", CTime e)] key) key
    = if (e <? utcnow)%Z then inl ExpiredSignature
      else inr [("sub", CStr sub); ("exp", CTime e)].

Let guard := get_current_user token SECRET_KEY ADMIN_USERNAME_ENV jwt_decode.
Let issue := create_access_token token SECRET_KEY jwt_encode.

Lemma guard_of_default (utcnow issued : Z) :
  guard utcnow (issue issued [("sub", CStr ADMIN_USERNAME_ENV)] None)
  = if (issued + 900 <? utcnow)%Z then inl credentials_exception
    else inr (CStr ADMIN_USERNAME_ENV).
Proof.
  unfold guard, issue, get_current_user, create_access_token.
  change (timedelta_minutes 15) with 900%Z.
  change (dict_set "exp" (CTime (issued + 900)) [("sub", CStr ADMIN_USERNAME_ENV)])
    with [("sub", CStr ADMIN_USERNAME_ENV); ("exp", CTime (issued + 900))].
  rewrite (decode_encode utcnow ADMIN_USERNAME_ENV SECRET_KEY (issued + 900)).
  destruct (issued + 900 <? utcnow)%Z; [reflexivity|].
  cbn [dict_get String.eqb Ascii.eqb Bool.eqb andb claim_eqb].
  now rewrite String.eqb_refl.
Qed.

(** X14. Without a lifetime, or with a zero one, a token is issued for 15
    minutes: the guard accepts it up to 900 seconds after issue and rejects
    it afterwards. The expiry is always the one the function computes: an
    expiry already present in the data is overwritten. *)
Theorem default_lifetime_is_fifteen_minutes :
  forall (utcnow issued : Z) (data : payload),
    issue issued data (Some 0%Z) = issue issued data None
    /\ (forall e lifetime,
          issue issued (dict_set "exp" (CTime e) data) lifetime
          = issue issued data lifetime)
    /\ ((utcnow <= issued + 900)%Z ->
        guard utcnow (issue issued [("sub", CStr ADMIN_USERNAME_ENV)] None)
        = inr (CStr ADMIN_USERNAME_ENV))
    /\ ((issued + 900 < utcnow)%Z ->
        guard utcnow (issue issued [("sub", CStr ADMIN_USERNAME_ENV)] None)
        = inl credentials_exception).
Proof.
  intros utcnow issued data. split; [reflexivity|]. split; [|split].
  - intros e lifetime. unfold issue, create_access_token.
    now rewrite dict_set_twice.
  - intros Hle. rewrite guard_of_default. apply Z.ltb_ge in Hle. now rewrite Hle.
  - intros Hlt. rewrite guard_of_default. apply Z.ltb_lt in Hlt. now rewrite Hlt.
Qed.

End AuthMore.

Lemma default_lifetime_is_fifteen_minutes_witness :
  get_current_user sym_token "k" "admin" sym_decode 900
    (create_access_token sym_token "k" sym_encode 0 [("sub", CStr "admin")] None)
  = inr (CStr "admin")
  /\ get_current_user sym_token "k" "admin" sym_decode 901
       (create_access_token sym_token "k" sym_encode 0 [("sub", CStr "admin")] None)
     = inl credentials_exception.
Proof.
  split.
  - destruct (default_lifetime_is_fifteen_minutes
                sym_token "k" "admin" sym_encode sym_decode sym_decode_encode
                900%Z 0%Z []) as [_ [_ [Hlive _]]].
    apply Hlive. apply Z.leb_le. reflexivity.
  - destruct (default_lifetime_is_fifteen_minutes
                sym_token "k" "admin" sym_encode sym_decode sym_decode_encode
                901%Z 0%Z []) as [_ [_ [_ Hdead]]].
    apply Hdead. apply Z.ltb_lt. reflexivity.
Defined.

(** ** The database address *)

(** X15. The configured database address never keeps the scheme
    "postgres://": such an address has that prefix, and only it, rewritten
    to "postgresql://", any other address is used as it is, the unset
    variable gives the local SQLite file, and applying the rewrite again
    changes nothing. *)
Theorem database_url_scheme_is_rewritten :
  forall (env : option string),
    PyStr.startswith "postgres://" (DATABASE_URL env) = false
    /\ DATABASE_URL (Some (DATABASE_URL env)) = DATABASE_URL env
    /\ (forall rest,
          DATABASE_URL (Some ("postgres://" ++ rest)) = "postgresql://" ++ rest)
    /\ (forall url,
          PyStr.startswith "postgres://" url = false ->
          DATABASE_URL (Some url) = url)
    /\ DATABASE_URL None = "sqlite:///./sql_app.db".
Proof.
  intros env.
  assert (Hkeep : forall url, PyStr.startswith "postgres://" url = false ->
                              DATABASE_URL (Some url) = url).
  { intros url H. unfold DATABASE_URL. cbn [getenv]. rewrite H.
    now rewrite andb_false_r. }
  assert (Hrewrite : forall rest,
             DATABASE_URL (Some ("postgres://" ++ rest)) = "postgresql://" ++ rest).
  { intros rest. reflexivity. }
  assert (Hnever : PyStr.startswith "postgres://" (DATABASE_URL env) = false).
  { destruct (PyStr.startswith "postgres://" (getenv env "sqlite:///./sql_app.db"))
      eqn:E.
    - apply startswith_spec in E as [rest E].
      assert (Hurl : DATABASE_URL env = DATABASE_URL (Some ("postgres://" ++ rest))).
      { unfold DATABASE_URL. cbn [getenv]. now rewrite E. }
      rewrite Hurl, Hrewrite. reflexivity.
    - assert (Hurl : DATABASE_URL env = getenv env "sqlite:///./sql_app.db").
      { unfold DATABASE_URL. rewrite E. now rewrite andb_false_r. }
      now rewrite Hurl. }
  split; [exact Hnever|]. split; [now apply Hkeep|].
  split; [exact Hrewrite|]. split; [exact Hkeep | reflexivity].
Qed.
